(** * infiniter: a lazy iterator wrapper with an infiniteness flag

    Shallow embedding of [src/infiniter/iter.py].

    A Python iterator is a piece of mutable state together with its
    [__next__] method.  It is embedded as a state type, the current state and
    a transition function (explicit state passing).  One call of the
    transition function is one turn of the iterator's innermost loop: it
    produces an element ([Yield]), signals [StopIteration] ([Stop]), or goes
    round its loop once more without producing anything ([Skip]: a rejected
    element of [filter], a composite candidate of [primes]).  A call of
    Python's [next] is the sequence of turns up to the first [Yield] or
    [Stop]; it does not return when that sequence is infinite, which is why
    every consumer below takes a number of turns it may use.

    A wrapper made from another one pulls from the producer of that one: the
    state of the producer is a component of the state of the new iterator,
    which threads it through its own turns and leaves it where its last pull
    has left it. *)

From Stdlib Require Import String Ascii ZArith List Bool Lia.
From Stdlib Require Import DecimalString Sorted Permutation.
Import ListNotations.
Open Scope Z_scope.

Set Implicit Arguments.

(** ** Iterator objects *)

Inductive event (T : Type) : Type :=
| Stop
| Skip
| Yield (x : T).

Arguments Stop {T}.
Arguments Skip {T}.
Arguments Yield {T} x.

Record iterator (T : Type) : Type := Iterator {
  istate : Type;
  icur : istate;
  inext : istate -> event T * istate
}.

(** The same iterator object after its state has moved to [s]. *)
Definition at_state {T} (it : iterator T) (s : istate it) : iterator T :=
  {| istate := istate it; icur := s; inext := inext it |}.

Section Run.
Context {T : Type} (it : iterator T).

(** [run k s]: at most [k] turns from state [s], stopping at the first
    [Stop].  Returns the elements produced, whether [Stop] was reached,
    and the state the iterator is left in. *)
Fixpoint run (k : nat) (s : istate it) : list T * bool * istate it :=
  match k with
  | O => ([], false, s)
  | S k' =>
      match inext it s with
      | (Stop, s') => ([], true, s')
      | (Skip, s') => run k' s'
      | (Yield x, s') =>
          let '(l, h, r) := run k' s' in (x :: l, h, r)
      end
  end.

Definition elems (k : nat) (s : istate it) : list T := fst (fst (run k s)).
Definition halted (k : nat) (s : istate it) : bool := snd (fst (run k s)).
Definition state_after (k : nat) (s : istate it) : istate it := snd (run k s).

(** Python's [next(it)]: [None] when [fuel] turns were not enough. *)
Fixpoint py_next (fuel : nat) (s : istate it) : option (option T * istate it) :=
  match fuel with
  | O => None
  | S f =>
      match inext it s with
      | (Stop, s') => Some (None, s')
      | (Skip, s') => py_next f s'
      | (Yield x, s') => Some (Some x, s')
      end
  end.

(** Python's [list(it)]. *)
Definition py_list (fuel : nat) (s : istate it) : option (list T * istate it) :=
  let '(l, h, r) := run fuel s in
  if h then Some (l, r) else None.

(** An iterator whose [__next__] answers at once: no turn is a [Skip]. *)
Definition direct : Prop := forall s, fst (inext it s) <> Skip.
End Run.

(** ** Exceptions

    [InfiniteIteratorError] is the module's own exception.  [ValueError]
    and [OverflowError] are raised by the interpreter: by [list] and
    [sorted] when the [__len__] of their argument answers a negative number,
    and by [itertools.repeat] when [times] does not fit in a C [ssize_t]. *)

Inductive exn : Type :=
| InfiniteIteratorError (msg : string)
| ValueError
| OverflowError.

Inductive result (A : Type) : Type :=
| Returned (a : A)
| Raised (e : exn).

Arguments Returned {A} a.
Arguments Raised {A} e.

(** ** Built-in iterators used by the module *)

(** [iter(some_list)] *)
Definition list_iterator {T} (l : list T) : iterator T :=
  {| istate := list T;
     icur := l;
     inext := fun s => match s with
                       | [] => (Stop, [])
                       | x :: r => (Yield x, r)
                       end |}.

(** [range(start, stop, step)], [step <> 0] *)
Definition py_range (start stop step : Z) : iterator Z :=
  {| istate := Z;
     icur := start;
     inext := fun i =>
       if ((0 <? step) && (i <? stop)) || ((step <? 0) && (stop <? i))
       then (Yield i, i + step)
       else (Stop, i) |}.

(** [itertools.count(start, step)] *)
Definition itertools_count (start step : Z) : iterator Z :=
  {| istate := Z;
     icur := start;
     inext := fun n => (Yield n, n + step) |}.

(** The object made by [itertools.repeat]: the state is the number of
    repetitions left, [None] for endless. *)
Definition repeat_object {T} (value : T) (cnt : option Z) : iterator T :=
  {| istate := option Z;
     icur := cnt;
     inext := fun c =>
       match c with
       | None => (Yield value, None)
       | Some n => if 0 <? n then (Yield value, Some (n - 1)) else (Stop, Some n)
       end |}.

(** The bounds of a C [ssize_t] (a 64-bit build). *)
Definition PY_SSIZE_T_MAX : Z := 2 ^ 63 - 1.
Definition PY_SSIZE_T_MIN : Z := - PY_SSIZE_T_MAX - 1.

(** [itertools.repeat(value)] and [itertools.repeat(value, times)]: the
    constructor converts [times] to a [ssize_t] and raises [OverflowError]
    when it does not fit. *)
Definition itertools_repeat {T} (value : T) (times : option Z)
  : result (iterator T) :=
  match times with
  | None => Returned (repeat_object value None)
  | Some n =>
      if (PY_SSIZE_T_MIN <=? n) && (n <=? PY_SSIZE_T_MAX)
      then Returned (repeat_object value (Some n))
      else Raised OverflowError
  end.

(** [map(func, it)] *)
Definition py_map {T U} (func : T -> U) (it : iterator T) : iterator U :=
  {| istate := istate it;
     icur := icur it;
     inext := fun s =>
       match inext it s with
       | (Stop, s') => (Stop, s')
       | (Skip, s') => (Skip, s')
       | (Yield x, s') => (Yield (func x), s')
       end |}.

(** [filter(predicate, it)] *)
Definition py_filter {T} (predicate : T -> bool) (it : iterator T) : iterator T :=
  {| istate := istate it;
     icur := icur it;
     inext := fun s =>
       match inext it s with
       | (Stop, s') => (Stop, s')
       | (Skip, s') => (Skip, s')
       | (Yield x, s') => if predicate x then (Yield x, s') else (Skip, s')
       end |}.

(** [enumerate(it, start)]: the counter lives next to the state of [it]. *)
Definition py_enumerate {T} (it : iterator T) (start : Z) : iterator (Z * T) :=
  {| istate := Z * istate it;
     icur := (start, icur it);
     inext := fun '(n, s) =>
       match inext it s with
       | (Stop, s') => (Stop, (n, s'))
       | (Skip, s') => (Skip, (n, s'))
       | (Yield x, s') => (Yield (n, x), (n + 1, s'))
       end |}.

(** [zip(a, *rest)], a tuple being the list of its components.  [zip2 a r]
    puts an element of [a] in front of a row of [r]; the element waits in
    the state while [r] is still looking for its row. *)
Definition zip2 {T} (a : iterator T) (r : iterator (list T)) : iterator (list T) :=
  {| istate := option T * istate a * istate r;
     icur := (None, icur a, icur r);
     inext := fun '(pending, sa, sr) =>
       let rest x sa' :=
         match inext r sr with
         | (Stop, sr') => (Stop, (None, sa', sr'))
         | (Skip, sr') => (Skip, (Some x, sa', sr'))
         | (Yield row, sr') => (Yield (x :: row), (None, sa', sr'))
         end in
       match pending with
       | Some x => rest x sa
       | None =>
           match inext a sa with
           | (Stop, sa') => (Stop, (None, sa', sr))
           | (Skip, sa') => (Skip, (None, sa', sr))
           | (Yield x, sa') => rest x sa'
           end
       end |}.

Definition empty_rows {T} : iterator (list T) :=
  {| istate := unit; icur := tt; inext := fun _ => (Yield [], tt) |}.

Definition empty_iterator {T} : iterator T :=
  {| istate := unit; icur := tt; inext := fun _ => (Stop, tt) |}.

Fixpoint zip_rows {T} (its : list (iterator T)) : iterator (list T) :=
  match its with
  | [] => empty_rows
  | it :: rest => zip2 it (zip_rows rest)
  end.

Definition py_zip {T} (its : list (iterator T)) : iterator (list T) :=
  match its with
  | [] => empty_iterator
  | _ => zip_rows its
  end.

(** Python's [str] on an [int], and [str.ljust]. *)
Definition str_int (z : Z) : string := NilZero.string_of_int (Z.to_int z).

Fixpoint spaces (n : nat) : string :=
  match n with
  | O => EmptyString
  | S k => String " " (spaces k)
  end.

Definition ljust (width : nat) (s : string) : string :=
  (s ++ spaces (width - String.length s))%string.

(** [sorted(l, key=None, reverse=reverse)]: a stable insertion sort that
    only uses [<], every comparison swapped when [reverse] is set. *)
Section Sorted.
Context {T : Type} (lt : T -> T -> bool).

Fixpoint insert_sorted (reverse : bool) (x : T) (l : list T) : list T :=
  match l with
  | [] => [x]
  | y :: r =>
      if (if reverse then lt x y else lt y x)
      then y :: insert_sorted reverse x r
      else x :: y :: r
  end.

Definition py_sorted (reverse : bool) (l : list T) : list T :=
  fold_right (insert_sorted reverse) [] l.
End Sorted.

(** ** Generators

    A generator whose body is one [for] loop over [src]: each element runs
    the loop body, which yields, goes on to the next element, or breaks.
    The flag of the state is cleared once the generator has returned. *)

Inductive action (U : Type) : Type :=
| Emit (y : U)
| Continue
| Break.

Arguments Emit {U} y.
Arguments Continue {U}.
Arguments Break {U}.

Definition gen_for {A U} (src : iterator A) (body : A -> action U) : iterator U :=
  {| istate := bool * istate src;
     icur := (true, icur src);
     inext := fun '(alive, s) =>
       if alive then
         match inext src s with
         | (Stop, s') => (Stop, (false, s'))
         | (Skip, s') => (Skip, (true, s'))
         | (Yield x, s') =>
             match body x with
             | Emit y => (Yield y, (true, s'))
             | Continue => (Skip, (true, s'))
             | Break => (Stop, (false, s'))
             end
         end
       else (Stop, (false, s)) |}.

(** Two loops one after the other: all of [a], then all of [b]. *)
Definition chain2 {T} (a b : iterator T) : iterator T :=
  {| istate := bool * istate a * istate b;
     icur := (true, icur a, icur b);
     inext := fun '(first, sa, sb) =>
       if first then
         match inext a sa with
         | (Yield x, sa') => (Yield x, (true, sa', sb))
         | (Skip, sa') => (Skip, (true, sa', sb))
         | (Stop, sa') => let (e, sb') := inext b sb in (e, (false, sa', sb'))
         end
       else let (e, sb') := inext b sb in (e, (false, sa, sb')) |}.

Fixpoint chain_gen {T} (its : list (iterator T)) : iterator T :=
  match its with
  | [] => empty_iterator
  | it :: rest => chain2 it (chain_gen rest)
  end.

(** ** class Iter

    [iter(w)] on a wrapper [w] is [w._iter] ([__iter__]); the methods below
    that iterate over [self] or over another wrapper use the field. *)

Record Iter (T : Type) : Type := MkIter {
  _iter : iterator T;
  _infinite : bool
}.

(** [Iter(iterable)] and [Iter(iterable, infinite=...)]: [infinite] is
    [None] where the call leaves the argument out. *)
Definition __init__ {T} (iterable : iterator T) (infinite : option bool) : Iter T :=
  {| _iter := iterable;
     _infinite := match infinite with Some b => b | None => false end |}.

(** [self] once its iterator has moved to [s]. *)
Definition moved {T} (self : Iter T) (s : istate (_iter self)) : Iter T :=
  {| _iter := at_state (_iter self) s; _infinite := _infinite self |}.

Definition newline : string := String (ascii_of_nat 10) EmptyString.

Definition default_message (method_name : string) : string :=
  ("Cannot call " ++ method_name ++ "() on infinite iterator" ++ newline
   ++ "Use .take(n)." ++ method_name ++ "() first to limit the iterator")%string.

(** [error_message or default]: an empty message is falsy too. *)
Definition message_or (error_message : option string) (default : string) : string :=
  match error_message with
  | Some (String c m) => String c m
  | _ => default
  end.

(** The decorator; [method_name] is [func.__name__].  A method returns
    [None] when it was given too few turns to finish, else what it returned
    or raised together with [self] as it left it. *)
Definition requires_finite {T A} (error_message : option string)
    (method_name : string)
    (func : Iter T -> option (result A * Iter T))
    (self : Iter T) : option (result A * Iter T) :=
  if _infinite self then
    Some (Raised (InfiniteIteratorError
                    (message_or error_message (default_message method_name))),
          self)
  else func self.

(** The loop body of the generator in [Iter.take]. *)
Definition take_body {T} (items : Z) (i : Z * T) : action T :=
  if fst i >=? items then Break else Emit (snd i).

Section Methods.
Context {T : Type}.

(** [Iter.__next__] *)
Definition __next__ (fuel : nat) (self : Iter T) : option (option T * Iter T) :=
  match py_next (_iter self) fuel (icur (_iter self)) with
  | Some (r, s') => Some (r, moved self s')
  | None => None
  end.

(** [Iter.__iter__] *)
Definition __iter__ (self : Iter T) : iterator T := _iter self.

(** [Iter.map] *)
Definition map {U} (self : Iter T) (func : T -> U) : Iter U :=
  __init__ (py_map func (_iter self)) None.

(** [Iter.filter] *)
Definition filter (self : Iter T) (predicate : T -> bool) : Iter T :=
  __init__ (py_filter predicate (_iter self)) None.

(** [Iter.filter_map]: [func] answers [None] for an element to drop. *)
Definition filter_map {U} (self : Iter T) (func : T -> option U) : Iter U :=
  __init__
    (gen_for (_iter self)
       (fun item => match func item with
                    | Some result => Emit result
                    | None => Continue
                    end))
    None.

(** [Iter.enumerate] *)
Definition enumerate (self : Iter T) (start : Z) : Iter (Z * T) :=
  __init__ (py_enumerate (_iter self) start) None.

(** [Iter.chain] *)
Definition chain (self : Iter T) (iterables : list (Iter T)) : Iter T :=
  __init__ (chain_gen (_iter self :: List.map (@_iter T) iterables)) None.

(** [Iter.zip] *)
Definition zip (self : Iter T) (iterables : list (Iter T)) : Iter (list T) :=
  __init__ (py_zip (_iter self :: List.map (@_iter T) iterables)) None.

(** [Iter.take] *)
Definition take (self : Iter T) (items : Z) : Iter T :=
  __init__
    (gen_for (_iter (enumerate self 0)) (take_body items))
    None.

(** The iterator [self._iter] that a wrapper made by [take] pulls from,
    read off the state of the generator. *)
Definition take_source (self : Iter T) (items : Z)
    (s : istate (_iter (take self items))) : istate (_iter self) :=
  snd (snd s).

(** [Iter.__len__]: the loop keeps the last index it has seen. *)
Fixpoint len_loop (en : iterator (Z * T)) (fuel : nat) (s : istate en)
    (total : Z) : option (Z * istate en) :=
  match fuel with
  | O => None
  | S f =>
      match inext en s with
      | (Stop, s') => Some (total, s')
      | (Skip, s') => len_loop en f s' total
      | (Yield i, s') => len_loop en f s' (fst i)
      end
  end.

Definition __len__ (fuel : nat) (self : Iter T) : option (Z * Iter T) :=
  if _infinite self then Some (-1, self)
  else
    let en := _iter (enumerate self 0) in
    match len_loop en fuel (icur en) 0 with
    | Some (total, s') => Some (total, moved self (snd s'))
    | None => None
    end.

Definition len := __len__.

(** Python's [list(self)] on a wrapper, which is also the first step of
    [sorted(self)].  The interpreter takes [iter(self)], that is
    [self._iter], then asks [self] for its length to size the list, which
    calls [__len__] above; a negative answer raises [ValueError].  Only then
    does it pull from the iterator it took, the one [__len__] has just
    looped over.  [fuel] bounds each of the two loops. *)
Definition list_self (fuel : nat) (self : Iter T)
  : option (result (list T) * Iter T) :=
  match __len__ fuel self with
  | Some (hint, self1) =>
      if hint <? 0 then Some (Raised ValueError, self1)
      else
        match py_list (_iter self1) fuel (icur (_iter self1)) with
        | Some (l, s') => Some (Returned l, moved self1 s')
        | None => None
        end
  | None => None
  end.

(** [Iter.collect] *)
Definition collect (fuel : nat) : Iter T -> option (result (list T) * Iter T) :=
  requires_finite None "collect" (list_self fuel).

(** [Iter.sort], on elements compared with [lt]. *)
Definition sort (lt : T -> T -> bool) (fuel : nat) (reverse : bool)
  : Iter T -> option (result (Iter T) * Iter T) :=
  requires_finite None "sort"
    (fun self =>
       match list_self fuel self with
       | Some (Returned l, self') =>
           Some (Returned (__init__ (list_iterator (py_sorted lt reverse l)) None),
                 self')
       | Some (Raised e, self') => Some (Raised e, self')
       | None => None
       end).

(** [Iter.__str__]; [str] is Python's [str] on the elements, [str_row]
    what one turn of the loop adds to [text]. *)
Definition str_row (str : T -> string) (i : Z * T) : string :=
  (ljust 3 (str_int (fst i)) ++ "|  " ++ str (snd i) ++ newline)%string.

Fixpoint str_loop (str : T -> string) (en : iterator (Z * T)) (fuel : nat)
    (s : istate en) (text : string) : option (string * istate en) :=
  match fuel with
  | O => None
  | S f =>
      match inext en s with
      | (Stop, s') => Some (text, s')
      | (Skip, s') => str_loop str en f s' text
      | (Yield i, s') =>
          let text := (text ++ str_row str i)%string in
          if fst i >=? 10 then Some ((text ++ "...")%string, s')
          else str_loop str en f s' text
      end
  end.

Definition __str__ (str : T -> string) (fuel : nat) (self : Iter T)
  : option (string * Iter T) :=
  let en := _iter (enumerate self 0) in
  match str_loop str en fuel (icur en) EmptyString with
  | Some (text, s') => Some (text, moved self (snd s'))
  | None => None
  end.
End Methods.

(** [Iter.sum] *)
Definition sum (fuel : nat) : Iter Z -> option (result Z * Iter Z) :=
  requires_finite None "sum"
    (fun self =>
       match py_list (_iter self) fuel (icur (_iter self)) with
       | Some (l, s') => Some (Returned (fold_left Z.add l 0), moved self s')
       | None => None
       end).

(** ** Static constructors *)

(** [Iter.range], [args] being the positional arguments: [None] where
    Python's [range] raises. *)
Definition range (args : list Z) : option (Iter Z) :=
  match args with
  | [stop] => Some (__init__ (py_range 0 stop 1) None)
  | [start; stop] => Some (__init__ (py_range start stop 1) None)
  | [start; stop; step] =>
      if step =? 0 then None else Some (__init__ (py_range start stop step) None)
  | _ => None
  end.

(** [Iter.count(start, step)]; the defaults are [0] and [1]. *)
Definition count (start step : Z) : Iter Z :=
  __init__ (itertools_count start step) (Some true).

(** [Iter.square(start)]: the mapped [count] is wrapped again, this time
    with [infinite=True]. *)
Definition square (start : Z) : Iter Z :=
  __init__ (__iter__ (map (count start 1) (fun x => x ^ 2))) (Some true).

(** Truth value of [times: int | None]. *)
Definition truthy (times : option Z) : bool :=
  match times with
  | Some n => negb (n =? 0)
  | None => false
  end.

(** [Iter.repeat(value, times)]: what [itertools.repeat] raises goes
    through. *)
Definition repeat {T} (value : T) (times : option Z) : result (Iter T) :=
  if truthy times
  then
    match itertools_repeat value times with
    | Returned it => Returned (__init__ it None)
    | Raised e => Raised e
    end
  else
    match itertools_repeat value None with
    | Returned it => Returned (__init__ it (Some true))
    | Raised e => Raised e
    end.

(** [Iter.primes].  [trial] is the inner [for] loop and returns
    [is_prime]; the states are the points where the generator is
    suspended or at the top of [while True]. *)
Fixpoint trial (primes : list Z) (candidate : Z) : bool :=
  match primes with
  | [] => true
  | p :: rest =>
      if p * p >? candidate then true
      else if candidate mod p =? 0 then false
      else trial rest candidate
  end.

Inductive primes_state : Type :=
| PrimesNew
| PrimesFirst
| PrimesYielded (primes : list Z) (candidate : Z)
| PrimesTop (primes : list Z) (candidate : Z).

Definition primes_iteration (primes : list Z) (candidate : Z)
  : event Z * primes_state :=
  if trial primes candidate
  then (Yield candidate, PrimesYielded (primes ++ [candidate]) candidate)
  else (Skip, PrimesTop primes (candidate + 2)).

Definition primes_gen : iterator Z :=
  {| istate := primes_state;
     icur := PrimesNew;
     inext := fun s =>
       match s with
       | PrimesNew => (Yield 2, PrimesFirst)
       | PrimesFirst => primes_iteration [2] 3
       | PrimesYielded primes candidate => primes_iteration primes (candidate + 2)
       | PrimesTop primes candidate => primes_iteration primes candidate
       end |}.

Definition primes : Iter Z := __init__ primes_gen (Some true).

(** What a wrapper hands out in its first [k] turns, and whether it has
    raised [StopIteration] by then. *)
Definition produced {T} (w : Iter T) (k : nat) : list T :=
  elems (_iter w) k (icur (_iter w)).

Definition exhausted {T} (w : Iter T) (k : nat) : bool :=
  halted (_iter w) k (icur (_iter w)).

(** The text of the preview for the elements [l], the first of them of
    index [i]. *)
Fixpoint rows {T} (str : T -> string) (i : Z) (l : list T) : string :=
  match l with
  | [] => EmptyString
  | x :: r => (str_row str (i, x) ++ rows str (i + 1) r)%string
  end.

(** [ps] lists the primes up to [n] in ascending order. *)
Definition primes_upto (ps : list Z) (n : Z) : Prop :=
  StronglySorted Z.lt ps /\ forall p, In p ps <-> Z.prime p /\ p <= n.

(** Where the generator of [primes] is suspended or at the top of its
    loop: the primes it has found, and the candidate it tests next. *)
Definition primes_known (s : primes_state) : list Z :=
  match s with
  | PrimesNew => []
  | PrimesFirst => [2]
  | PrimesYielded ps _ => ps
  | PrimesTop ps _ => ps
  end.

Definition primes_candidate (s : primes_state) : Z :=
  match s with
  | PrimesNew => 2
  | PrimesFirst => 3
  | PrimesYielded _ c => c + 2
  | PrimesTop _ c => c
  end.

Arguments take_source {T} self items s.

(** ** The rest of class Iter *)

(** The loop body of the generator in [Iter.take_while]. *)
Definition take_while_body {T} (predicate : T -> bool) (i : T) : action T :=
  if negb (predicate i) then Break else Emit i.

(** [Iter.take_while] *)
Definition take_while {T} (self : Iter T) (predicate : T -> bool) : Iter T :=
  __init__ (gen_for (__iter__ self) (take_while_body predicate)) None.

(** [Iter.__getitem__]: the loop returns at the first pair whose index is
    [index]; a loop that ends returns [None]. *)
Fixpoint getitem_loop {T} (en : iterator (Z * T)) (fuel : nat) (s : istate en)
    (index : Z) : option (option T * istate en) :=
  match fuel with
  | O => None
  | S f =>
      match inext en s with
      | (Stop, s') => Some (None, s')
      | (Skip, s') => getitem_loop en f s' index
      | (Yield i, s') =>
          if fst i =? index then Some (Some (snd i), s')
          else getitem_loop en f s' index
      end
  end.

Definition __getitem__ {T} (fuel : nat) (self : Iter T) (index : Z)
  : option (option T * Iter T) :=
  let en := _iter (enumerate self 0) in
  match getitem_loop en fuel (icur en) index with
  | Some (r, s') => Some (r, moved self (snd s'))
  | None => None
  end.

(** The right operand of [+], [-] and [*]: another wrapper
    ([isinstance(other, Iter)]) or a number. *)
Inductive operand : Type :=
| Wrapper (other : Iter Z)
| Scalar (other : Z).

(** [pair[n]] on a tuple of [zip]. *)
Definition item (pair : list Z) (n : nat) : Z := nth n pair 0.

(** [Iter.__add__], [Iter.__sub__], [Iter.__mul__] *)
Definition __add__ (self : Iter Z) (other : operand) : Iter Z :=
  match other with
  | Wrapper o => map (zip self [o]) (fun pair => item pair 0 + item pair 1)
  | Scalar z => map self (fun x => x + z)
  end.

Definition __sub__ (self : Iter Z) (other : operand) : Iter Z :=
  match other with
  | Wrapper o => map (zip self [o]) (fun pair => item pair 0 - item pair 1)
  | Scalar z => map self (fun x => x - z)
  end.

Definition __mul__ (self : Iter Z) (other : operand) : Iter Z :=
  match other with
  | Wrapper o => map (zip self [o]) (fun pair => item pair 0 * item pair 1)
  | Scalar z => map self (fun x => x * z)
  end.

(** [itertools.cycle(it)]: the elements of [it] are handed out and saved;
    once [it] has stopped the saved elements are handed out round after
    round.  The last component of the state is what is left of the current
    round, [None] while [it] is still running. *)
Definition itertools_cycle {T} (it : iterator T) : iterator T :=
  {| istate := istate it * list T * option (list T);
     icur := (icur it, [], None);
     inext := fun '(s, saved, round) =>
       let again s' :=
         match saved with
         | [] => (Stop, (s', saved, Some []))
         | x :: r => (Yield x, (s', saved, Some r))
         end in
       match round with
       | None =>
           match inext it s with
           | (Yield x, s') => (Yield x, (s', saved ++ [x], None))
           | (Skip, s') => (Skip, (s', saved, None))
           | (Stop, s') => again s'
           end
       | Some (x :: r) => (Yield x, (s, saved, Some r))
       | Some [] => again s
       end |}.

(** [Iter.cycle] *)
Definition cycle {T} (iterable : iterator T) : Iter T :=
  __init__ (itertools_cycle iterable) (Some true).

(** [Iter.fibonacci]: the generator is new, or suspended at [yield a] with
    the values of [a] and [b] of that moment. *)
Definition fibonacci_gen (a b : Z) : iterator Z :=
  {| istate := bool * Z * Z;
     icur := (false, a, b);
     inext := fun '(suspended, a, b) =>
       if suspended then (Yield b, (true, b, a + b))
       else (Yield a, (true, a, b)) |}.

Definition fibonacci (a b : Z) : Iter Z :=
  __init__ (fibonacci_gen a b) (Some true).

(** [Iter.triangle_numbers]: new, or suspended at [yield total] with [n]
    and [total]. *)
Definition triangle_numbers_gen : iterator Z :=
  {| istate := option (Z * Z);
     icur := None;
     inext := fun s =>
       match s with
       | None => (Yield 1, Some (1, 1))
       | Some (n, total) => (Yield (total + (n + 1)), Some (n + 1, total + (n + 1)))
       end |}.

Definition triangle_numbers : Iter Z :=
  __init__ triangle_numbers_gen (Some true).

(** ** Generator.py and count.py *)

(** What [iter] is given: an iterator, which [iter] returns as it is, or a
    list, of which [iter] makes a new iterator every time. *)
Inductive iterable (T : Type) : Type :=
| AnIterator (it : iterator T)
| AList (l : list T).

Arguments AnIterator {T} it.
Arguments AList {T} l.

Definition py_iter {T} (x : iterable T) : iterator T :=
  match x with
  | AnIterator it => it
  | AList l => list_iterator l
  end.

Module generator.

(** class Generator.  When [generator] is an iterator, [_iterator] is that
    very object once it is set: a pull moves both fields. *)
Record Generator (T : Type) : Type := MkGenerator {
  generator : iterable T;
  _iterator : option (iterator T)
}.

Definition __init__ {T} (generator : iterable T) : Generator T :=
  {| generator := generator; _iterator := None |}.

(** [Generator.__iter__]; the method returns [self]. *)
Definition __iter__ {T} (self : Generator T) : Generator T :=
  {| generator := generator self;
     _iterator := Some (py_iter (generator self)) |}.

(** [Generator.__next__] *)
Definition __next__ {T} (fuel : nat) (self : Generator T)
  : option (option T * Generator T) :=
  let it := match _iterator self with
            | None => py_iter (generator self)
            | Some it => it
            end in
  match py_next it fuel (icur it) with
  | Some (r, s') =>
      Some (r,
            {| generator := match generator self with
                            | AnIterator _ => AnIterator (at_state it s')
                            | AList l => AList l
                            end;
               _iterator := Some (at_state it s') |})
  | None => None
  end.

(** [return_generator] *)
Definition return_generator {A T} (func : A -> iterator T) (args : A)
  : Generator T :=
  __init__ (AnIterator (func args)).

(** [n] calls of [next] in a row: the values returned, up to the first
    [StopIteration]. *)
Fixpoint nexts {T} (fuel n : nat) (self : Generator T)
  : option (list T * Generator T) :=
  match n with
  | O => Some ([], self)
  | S m =>
      match __next__ fuel self with
      | Some (Some x, self') =>
          match nexts fuel m self' with
          | Some (l, self'') => Some (x :: l, self'')
          | None => None
          end
      | Some (None, self') => Some ([], self')
      | None => None
      end
  end.

End generator.

Module count_py.

(** The generator function of count.py: new, or suspended at [yield n]. *)
Definition count_gen : iterator Z :=
  {| istate := option Z;
     icur := None;
     inext := fun s =>
       match s with
       | None => (Yield 0, Some 0)
       | Some n => (Yield (n + 1), Some (n + 1))
       end |}.

(** [count], decorated with [return_generator]. *)
Definition count : generator.Generator Z :=
  generator.return_generator (fun _ : unit => count_gen) tt.

End count_py.

(** ** Vocabulary of the statements *)

(** The longest prefix of [l] on which [p] holds. *)
Fixpoint prefix_while {T} (p : T -> bool) (l : list T) : list T :=
  match l with
  | [] => []
  | x :: r => if p x then x :: prefix_while p r else []
  end.

(** [l] paired with the indices [i], [i + 1], ... *)
Fixpoint indexed {T} (i : Z) (l : list T) : list (Z * T) :=
  match l with
  | [] => []
  | x :: r => (i, x) :: indexed (i + 1) r
  end.

(** The sequence of Fibonacci started at [a] and [b]. *)
Fixpoint fib_from (a b : Z) (n : nat) : Z :=
  match n with
  | O => a
  | S m => fib_from b (a + b) m
  end.

(** [l] written [n] times over. *)
Definition rounds {T} (l : list T) (n : nat) : list T :=
  concat (List.repeat l n).

Section Nexts.
Context {T : Type} (it : iterator T).

(** [n] calls of [next] in a row on an iterator: the values returned, up
    to the first [StopIteration]. *)
Fixpoint py_nexts (fuel n : nat) (s : istate it)
  : option (list T * istate it) :=
  match n with
  | O => Some ([], s)
  | S m =>
      match py_next it fuel s with
      | Some (Some x, s') =>
          match py_nexts fuel m s' with
          | Some (l, s'') => Some (x :: l, s'')
          | None => None
          end
      | Some (None, s') => Some ([], s')
      | None => None
      end
  end.
End Nexts.

(** [self] is a [Generator] made of the iterator object [g], which stands
    where [g] stands. *)
Definition wraps {T} (self : generator.Generator T) (g : iterator T) : Prop :=
  generator.generator self = AnIterator g /\
  (generator._iterator self = None \/ generator._iterator self = Some g).

(** * Facts about runs *)

Unset Implicit Arguments.

Lemma skipn_head {A : Type} (l : list A) (i : nat) (y : A) :
  nth_error l i = Some y -> exists t, skipn i l = y :: t.
Proof.
  revert l; induction i as [|i IH]; intros [|x l]; simpl; try discriminate.
  - intro E; injection E as ->. eexists; reflexivity.
  - apply IH.
Qed.

Section RunFacts.
Context {T : Type} (it : iterator T).

Lemma run_unfold (k : nat) (s : istate it) :
  run it k s = (elems it k s, halted it k s, state_after it k s).
Proof.
  unfold elems, halted, state_after.
  destruct (run it k s) as [[l h] r]; reflexivity.
Qed.

Lemma run_add (j k : nat) (s : istate it) :
  run it (j + k) s =
  if halted it j s then run it j s
  else let '(l2, h2, s2) := run it k (state_after it j s) in
       (elems it j s ++ l2, h2, s2).
Proof.
  revert s; induction j as [|j IH]; intro s.
  - unfold halted, state_after, elems; simpl.
    destruct (run it k s) as [[l h] r]; reflexivity.
  - unfold halted, state_after, elems in *; simpl.
    destruct (inext it s) as [[| |x] s1]; simpl.
    + reflexivity.
    + apply IH.
    + rewrite IH.
      destruct (run it j s1) as [[l1 h1] r1]; simpl.
      destruct h1; [reflexivity|].
      destruct (run it k r1) as [[l2 h2] r2]; reflexivity.
Qed.

Lemma elems_add (j k : nat) (s : istate it) :
  elems it (j + k) s =
  if halted it j s then elems it j s
  else elems it j s ++ elems it k (state_after it j s).
Proof.
  unfold elems at 1; rewrite run_add.
  destruct (halted it j s); [reflexivity|].
  rewrite (run_unfold k); reflexivity.
Qed.

Lemma halted_add (j k : nat) (s : istate it) :
  halted it (j + k) s = halted it j s || halted it k (state_after it j s).
Proof.
  unfold halted at 1; rewrite run_add.
  destruct (halted it j s) eqn:E; [exact E|].
  rewrite (run_unfold k); reflexivity.
Qed.

Lemma state_after_add (j k : nat) (s : istate it) :
  halted it j s = false ->
  state_after it (j + k) s = state_after it k (state_after it j s).
Proof.
  intro E; unfold state_after at 1; rewrite run_add, E.
  rewrite (run_unfold k); reflexivity.
Qed.

Lemma elems_length_le (k : nat) (s : istate it) :
  (length (elems it k s) <= k)%nat.
Proof.
  revert s; induction k as [|k IH]; intro s; unfold elems in *; simpl.
  - lia.
  - destruct (inext it s) as [[| |x] s1]; simpl; try lia.
    + specialize (IH s1); lia.
    + specialize (IH s1).
      destruct (run it k s1) as [[l h] r]; simpl in *; lia.
Qed.

(** A [direct] iterator that has not stopped has produced one element a
    turn. *)
Lemma direct_elems_length (D : direct it) (k : nat) (s : istate it) :
  halted it k s = false -> length (elems it k s) = k.
Proof.
  revert s; induction k as [|k IH]; intro s;
    unfold elems, halted in *; simpl; [reflexivity|].
  pose proof (D s) as Ds.
  destruct (inext it s) as [[| |x] s1]; simpl in *.
  - discriminate.
  - congruence.
  - specialize (IH s1).
    destruct (run it k s1) as [[l h] r]; simpl in *.
    intro E; rewrite (IH E); reflexivity.
Qed.

Lemma turn_stop (k : nat) (s s' : istate it) :
  inext it s = (Stop, s') ->
  elems it (S k) s = [] /\ halted it (S k) s = true.
Proof. intro E; unfold elems, halted; simpl; rewrite E; split; reflexivity. Qed.

Lemma turn_skip (k : nat) (s s' : istate it) :
  inext it s = (Skip, s') ->
  elems it (S k) s = elems it k s' /\ halted it (S k) s = halted it k s'.
Proof. intro E; unfold elems, halted; simpl; rewrite E; split; reflexivity. Qed.

Lemma turn_yield (k : nat) (s s' : istate it) (x : T) :
  inext it s = (Yield x, s') ->
  elems it (S k) s = x :: elems it k s' /\
  halted it (S k) s = halted it k s'.
Proof.
  intro E; unfold elems, halted; simpl; rewrite E.
  destruct (run it k s') as [[l h] r]; split; reflexivity.
Qed.

(** [next] returns the first element of what is produced. *)
Lemma py_next_head (k : nat) (s : istate it) (y : T) (l : list T) :
  elems it k s = y :: l -> exists s', py_next it k s = Some (Some y, s').
Proof.
  revert s; induction k as [|k IH]; intro s; unfold elems in *; simpl;
    [discriminate|].
  destruct (inext it s) as [[| |x] s1]; simpl.
  - discriminate.
  - apply IH.
  - destruct (run it k s1) as [[l1 h1] r1]; simpl.
    intro E; injection E as -> _. eexists; reflexivity.
Qed.

Lemma py_list_run (k : nat) (s : istate it) :
  py_list it k s =
  if halted it k s then Some (elems it k s, state_after it k s) else None.
Proof.
  unfold py_list; rewrite run_unfold; reflexivity.
Qed.
End RunFacts.

(** * The built-in iterators *)

Lemma itertools_count_direct (start step : Z) : direct (itertools_count start step).
Proof. intros s; simpl; discriminate. Qed.

Lemma itertools_count_never_halts (start step : Z) (k : nat) :
  forall s, halted (itertools_count start step) k s = false.
Proof.
  induction k as [|k IH]; intro s; unfold halted in *; simpl; [reflexivity|].
  specialize (IH (s + step)).
  destruct (run (itertools_count start step) k (s + step)) as [[l h] r];
    exact IH.
Qed.

Lemma py_range_direct (start stop step : Z) : direct (py_range start stop step).
Proof.
  intros s; simpl.
  destruct ((0 <? step) && (s <? stop) || (step <? 0) && (stop <? s));
    discriminate.
Qed.

Lemma list_iterator_direct {T : Type} (l : list T) : direct (list_iterator l).
Proof. intros [|x s]; simpl; discriminate. Qed.

Lemma repeat_endless_run {T : Type} (v : T) (k : nat) :
  run (repeat_object v None) k None = (List.repeat v k, false, None).
Proof.
  induction k as [|k IH]; simpl; [reflexivity|].
  rewrite IH; reflexivity.
Qed.

Lemma repeat_times_run {T : Type} (v : T) (k : nat) :
  forall n : nat,
    (n < k)%nat ->
    run (repeat_object v (Some (Z.of_nat n))) k (Some (Z.of_nat n)) =
    (List.repeat v n, true, Some 0).
Proof.
  induction k as [|k IH]; intros n Hn; [lia|].
  destruct n as [|n].
  - reflexivity.
  - cbn [run repeat_object inext].
    replace (0 <? Z.of_nat (S n)) with true by (symmetry; apply Z.ltb_lt; lia).
    replace (Z.of_nat (S n) - 1) with (Z.of_nat n) by lia.
    change (run (repeat_object v (Some (Z.of_nat (S n)))) k (Some (Z.of_nat n)))
      with (run (repeat_object v (Some (Z.of_nat n))) k (Some (Z.of_nat n))).
    rewrite IH by lia. reflexivity.
Qed.

(** Before its last repetition the object has handed out one value a turn. *)
Lemma repeat_short_run {T : Type} (v : T) (k : nat) :
  forall n : nat,
    (k <= n)%nat ->
    run (repeat_object v (Some (Z.of_nat n))) k (Some (Z.of_nat n)) =
    (List.repeat v k, false, Some (Z.of_nat n - Z.of_nat k)).
Proof.
  induction k as [|k IH]; intros n Hn.
  - cbn [run List.repeat]. rewrite Z.sub_0_r. reflexivity.
  - destruct n as [|n]; [lia|].
    cbn [run repeat_object inext].
    replace (0 <? Z.of_nat (S n)) with true by (symmetry; apply Z.ltb_lt; lia).
    replace (Z.of_nat (S n) - 1) with (Z.of_nat n) by lia.
    change (run (repeat_object v (Some (Z.of_nat (S n)))) k (Some (Z.of_nat n)))
      with (run (repeat_object v (Some (Z.of_nat n))) k (Some (Z.of_nat n))).
    rewrite IH by lia. cbn [List.repeat].
    replace (Z.of_nat n - Z.of_nat k) with (Z.of_nat (S n) - Z.of_nat (S k)) by lia.
    reflexivity.
Qed.

(** [itertools.repeat] accepts the numbers of times that fit in a
    [ssize_t], and raises on the others. *)
Lemma itertools_repeat_fits {T : Type} (v : T) (times : Z) :
  PY_SSIZE_T_MIN <= times <= PY_SSIZE_T_MAX ->
  itertools_repeat v (Some times) = Returned (repeat_object v (Some times)).
Proof.
  intros [H1 H2]. unfold itertools_repeat.
  apply Z.leb_le in H1, H2. rewrite H1, H2. reflexivity.
Qed.

Lemma itertools_repeat_overflows {T : Type} (v : T) (times : Z) :
  times < PY_SSIZE_T_MIN \/ PY_SSIZE_T_MAX < times ->
  itertools_repeat v (Some times) = Raised OverflowError.
Proof.
  intros [H|H]; unfold itertools_repeat.
  - apply Z.leb_gt in H. rewrite H. reflexivity.
  - apply Z.leb_gt in H. rewrite H, andb_false_r. reflexivity.
Qed.

(** * The generator of [take] *)

Section TakeFacts.
Context {T : Type} (it : iterator T) (items : Z).

Local Abbreviation tk := (gen_for (py_enumerate it 0) (take_body items)).

(** Either the source has produced more than the [items - i] elements
    still wanted: the generator has let through those, has pulled one
    more, dropped it and returned, leaving the source where that pull left
    it.  Or it has not, and the generator has followed the source turn by
    turn. *)
Lemma take_run (k : nat) : forall (i : Z) (s : istate it),
  let m := Z.to_nat (items - i) in
  ((m < length (elems it k s))%nat /\
   exists k', (k' <= k)%nat /\ halted it k' s = false /\
     elems it k' s = firstn (S m) (elems it k s) /\
     run tk k (true, (i, s)) =
     (firstn m (elems it k s), true,
      (false, (i + Z.of_nat m + 1, state_after it k' s))))
  \/
  ((length (elems it k s) <= m)%nat /\
   run tk k (true, (i, s)) =
   (elems it k s, halted it k s,
    (negb (halted it k s),
     (i + Z.of_nat (length (elems it k s)), state_after it k s)))).
Proof.
  set (g := tk).
  induction k as [|k IH]; intros i s m.
  - right; split; [simpl; lia|].
    unfold elems, halted, state_after; simpl.
    rewrite Z.add_0_r; reflexivity.
  - unfold elems, halted, state_after in *; simpl.
    destruct (inext it s) as [[| |x] s1] eqn:E; simpl.
    + right; split; [lia|]. rewrite Z.add_0_r; reflexivity.
    + destruct (IH i s1) as [[Hlt [k' [Hk [Hh [He Hr]]]]]|[Hle Hr]].
      * left; split; [exact Hlt|].
        exists (S k'); simpl; rewrite E.
        repeat split; [lia|exact Hh|exact He|exact Hr].
      * right; split; [exact Hle|exact Hr].
    + unfold take_body; simpl.
      destruct (i >=? items) eqn:Ei.
      * assert (m = 0%nat) as Hm by (subst m; lia).
        left. destruct (run it k s1) as [[l h] r]; simpl.
        split; [lia|].
        exists 1%nat; simpl; rewrite E; simpl.
        rewrite Hm; simpl.
        repeat split; [lia|].
        rewrite Z.add_0_r; reflexivity.
      * assert (m = S (Z.to_nat (items - (i + 1)))) as Hm by (subst m; lia).
        destruct (IH (i + 1) s1) as [[Hlt [k' [Hk [Hh [He Hr]]]]]|[Hle Hr]].
        -- left. rewrite Hr.
           destruct (run it k s1) as [[l h] r]; simpl in *.
           split; [lia|].
           exists (S k'); simpl; rewrite E.
           destruct (run it k' s1) as [[l' h'] r']; simpl in *.
           rewrite Hm; cbn [firstn fst snd].
           repeat split; [lia|exact Hh|congruence|].
           repeat (f_equal; try lia).
        -- right. rewrite Hr.
           destruct (run it k s1) as [[l h] r]; simpl in *.
           split; [lia|].
           repeat (f_equal; try lia).
Qed.

Lemma take_elems (k : nat) (i : Z) (s : istate it) :
  elems tk k (true, (i, s)) = firstn (Z.to_nat (items - i)) (elems it k s).
Proof.
  destruct (take_run k i s) as [[Hlt [k' [_ [_ [_ Hr]]]]]|[Hle Hr]];
    unfold elems at 1; rewrite Hr; simpl; [reflexivity|].
  symmetry; apply firstn_all2; exact Hle.
Qed.

Lemma take_halted (k : nat) (i : Z) (s : istate it) :
  halted tk k (true, (i, s)) =
  halted it k s || (Z.to_nat (items - i) <? length (elems it k s))%nat.
Proof.
  destruct (take_run k i s) as [[Hlt [k' [_ [_ [_ Hr]]]]]|[Hle Hr]];
    unfold halted at 1; rewrite Hr; simpl.
  - apply Nat.ltb_lt in Hlt; rewrite Hlt, orb_true_r; reflexivity.
  - apply Nat.ltb_ge in Hle; rewrite Hle, orb_false_r; reflexivity.
Qed.

(** Once the generator has returned it stays returned. *)
Lemma take_stopped (k : nat) (i : Z) (s : istate it) :
  halted tk k (true, (i, s)) = true ->
  fst (state_after tk k (true, (i, s))) = false.
Proof.
  destruct (take_run k i s) as [[Hlt [k' [_ [_ [_ Hr]]]]]|[Hle Hr]];
    unfold halted, state_after; rewrite Hr; cbn [fst snd].
  - reflexivity.
  - intro H; rewrite H; reflexivity.
Qed.
End TakeFacts.

Section TakeWrapper.
Context {T : Type} (S0 : Iter T) (n : nat).

Lemma take_produced (k : nat) :
  produced (take S0 (Z.of_nat n)) k = firstn n (produced S0 k).
Proof.
  unfold produced; simpl.
  rewrite (take_elems (_iter S0) (Z.of_nat n) k 0 (icur (_iter S0))).
  rewrite Z.sub_0_r, Nat2Z.id; reflexivity.
Qed.

Lemma take_exhausted (k : nat) :
  exhausted (take S0 (Z.of_nat n)) k =
  exhausted S0 k || (n <? length (produced S0 k))%nat.
Proof.
  unfold exhausted, produced; simpl.
  rewrite (take_halted (_iter S0) (Z.of_nat n) k 0 (icur (_iter S0))).
  rewrite Z.sub_0_r, Nat2Z.id; reflexivity.
Qed.
End TakeWrapper.

(** * [zip] *)

Section ZipFacts.
Context {T : Type}.

Lemma zip2_direct (a : iterator T) (r : iterator (list T)) :
  direct a -> direct r -> direct (zip2 a r).
Proof.
  intros Da Dr [[pending sa] sr]; simpl.
  pose proof (Dr sr) as Hr.
  destruct pending as [x|].
  - destruct (inext r sr) as [[| |row] sr']; simpl in *; congruence.
  - pose proof (Da sa) as Ha.
    destruct (inext a sa) as [[| |x] sa']; simpl in *; try congruence.
    destruct (inext r sr) as [[| |row] sr']; simpl in *; congruence.
Qed.

(** With operands that answer every pull at once nothing ever waits in the
    state, and a row is made in one turn: one pull of [a], then one of
    [r]. *)
Lemma zip2_run (a : iterator T) (r : iterator (list T)) :
  direct a -> direct r ->
  forall k sa sr,
    elems (zip2 a r) k (None, sa, sr) =
    List.map (fun p => fst p :: snd p) (combine (elems a k sa) (elems r k sr)) /\
    halted (zip2 a r) k (None, sa, sr) = halted a k sa || halted r k sr.
Proof.
  intros Da Dr.
  induction k as [|k IH]; intros sa sr;
    unfold elems, halted in *; simpl; [split; reflexivity|].
  pose proof (Da sa) as Ha. pose proof (Dr sr) as Hr.
  destruct (inext a sa) as [[| |x] sa'] eqn:Ea; simpl in *;
    [split; reflexivity|congruence|].
  destruct (inext r sr) as [[| |row] sr'] eqn:Er; simpl in *; try congruence.
  - destruct (run a k sa') as [[la ha] ra]; simpl.
    split; [reflexivity|apply eq_sym, orb_true_r].
  - specialize (IH sa' sr').
    destruct (run (zip2 a r) k (None, sa', sr')) as [[lz hz] rz].
    destruct (run a k sa') as [[la ha] ra].
    destruct (run r k sr') as [[lr hr] rr]; simpl in *.
    destruct IH as [IH1 IH2]; split; congruence.
Qed.

(** Operands of any kind: after [k] turns the rows are those made of what
    [a] has produced in the [ka] turns it has been given and [r] in its
    [kr] turns, [pending] first if an element was waiting; the iterator has
    stopped when one of the operands has; until then every turn is a turn of
    an operand at least. *)
Lemma zip2_run_any (a : iterator T) (r : iterator (list T)) (k : nat) :
  forall pending sa sr,
  exists ka kr, (ka <= k)%nat /\ (kr <= k)%nat /\
    elems (zip2 a r) k (pending, sa, sr) =
    List.map (fun p => fst p :: snd p)
      (combine (match pending with Some x => [x] | None => [] end
                ++ elems a ka sa)
               (elems r kr sr)) /\
    halted (zip2 a r) k (pending, sa, sr) = halted a ka sa || halted r kr sr /\
    (halted (zip2 a r) k (pending, sa, sr) = false -> (k <= ka + kr)%nat).
Proof.
  induction k as [|k IH]; intros pending sa sr.
  - exists 0%nat, 0%nat. split; [lia|]. split; [lia|].
    split; [|split; [reflexivity|lia]].
    unfold elems; simpl. rewrite combine_nil; reflexivity.
  - destruct pending as [x|].
    + destruct (inext r sr) as [[| |row] sr'] eqn:Er.
      * exists 0%nat, 1%nat. split; [lia|]. split; [lia|].
        destruct (turn_stop r 0 sr sr' Er) as [Her Hhr].
        rewrite Her, Hhr.
        destruct (turn_stop (zip2 a r) k (Some x, sa, sr) (None, sa, sr'))
          as [He Hh]; [simpl; rewrite Er; reflexivity|].
        rewrite He, Hh. split; [reflexivity|].
        split; [reflexivity|discriminate].
      * destruct (IH (Some x) sa sr') as [ka [kr [Hka [Hkr [He [Hh Hp]]]]]].
        exists ka, (S kr). split; [lia|]. split; [lia|].
        destruct (turn_skip r kr sr sr' Er) as [Her Hhr].
        rewrite Her, Hhr.
        destruct (turn_skip (zip2 a r) k (Some x, sa, sr) (Some x, sa, sr'))
          as [He' Hh']; [simpl; rewrite Er; reflexivity|].
        rewrite He', Hh'. split; [exact He|].
        split; [exact Hh|intro H; specialize (Hp H); lia].
      * destruct (IH None sa sr') as [ka [kr [Hka [Hkr [He [Hh Hp]]]]]].
        exists ka, (S kr). split; [lia|]. split; [lia|].
        destruct (turn_yield r kr sr sr' row Er) as [Her Hhr].
        rewrite Her, Hhr.
        destruct (turn_yield (zip2 a r) k (Some x, sa, sr) (None, sa, sr')
                    (x :: row)) as [He' Hh']; [simpl; rewrite Er; reflexivity|].
        rewrite He', Hh', He. split; [reflexivity|].
        split; [exact Hh|intro H; specialize (Hp H); lia].
    + destruct (inext a sa) as [[| |x] sa'] eqn:Ea.
      * exists 1%nat, 0%nat. split; [lia|]. split; [lia|].
        destruct (turn_stop a 0 sa sa' Ea) as [Hea Hha].
        rewrite Hea, Hha.
        destruct (turn_stop (zip2 a r) k (None, sa, sr) (None, sa', sr))
          as [He Hh]; [simpl; rewrite Ea; reflexivity|].
        rewrite He, Hh. split; [reflexivity|].
        split; [reflexivity|discriminate].
      * destruct (IH None sa' sr) as [ka [kr [Hka [Hkr [He [Hh Hp]]]]]].
        exists (S ka), kr. split; [lia|]. split; [lia|].
        destruct (turn_skip a ka sa sa' Ea) as [Hea Hha].
        rewrite Hea, Hha.
        destruct (turn_skip (zip2 a r) k (None, sa, sr) (None, sa', sr))
          as [He' Hh']; [simpl; rewrite Ea; reflexivity|].
        rewrite He', Hh'. split; [exact He|].
        split; [exact Hh|intro H; specialize (Hp H); lia].
      * destruct (inext r sr) as [[| |row] sr'] eqn:Er.
        -- exists 1%nat, 1%nat. split; [lia|]. split; [lia|].
           destruct (turn_yield a 0 sa sa' x Ea) as [Hea Hha].
           destruct (turn_stop r 0 sr sr' Er) as [Her Hhr].
           rewrite Hea, Hha, Her, Hhr.
           destruct (turn_stop (zip2 a r) k (None, sa, sr) (None, sa', sr'))
             as [He Hh]; [simpl; rewrite Ea, Er; reflexivity|].
           rewrite He, Hh. split; [reflexivity|].
           split; [rewrite orb_true_r; reflexivity|discriminate].
        -- destruct (IH (Some x) sa' sr') as [ka [kr [Hka [Hkr [He [Hh Hp]]]]]].
           exists (S ka), (S kr). split; [lia|]. split; [lia|].
           destruct (turn_yield a ka sa sa' x Ea) as [Hea Hha].
           destruct (turn_skip r kr sr sr' Er) as [Her Hhr].
           rewrite Hea, Hha, Her, Hhr.
           destruct (turn_skip (zip2 a r) k (None, sa, sr) (Some x, sa', sr'))
             as [He' Hh']; [simpl; rewrite Ea, Er; reflexivity|].
           rewrite He', Hh'. split; [exact He|].
           split; [exact Hh|intro H; specialize (Hp H); lia].
        -- destruct (IH None sa' sr') as [ka [kr [Hka [Hkr [He [Hh Hp]]]]]].
           exists (S ka), (S kr). split; [lia|]. split; [lia|].
           destruct (turn_yield a ka sa sa' x Ea) as [Hea Hha].
           destruct (turn_yield r kr sr sr' row Er) as [Her Hhr].
           rewrite Hea, Hha, Her, Hhr.
           destruct (turn_yield (zip2 a r) k (None, sa, sr) (None, sa', sr')
                       (x :: row)) as [He' Hh'];
             [simpl; rewrite Ea, Er; reflexivity|].
           rewrite He', Hh', He. split; [reflexivity|].
           split; [exact Hh|intro H; specialize (Hp H); lia].
Qed.

(** The rows of a single operand are its elements, one in each row. *)
Lemma zip_single_run (b : iterator T) :
  forall k sb,
    elems (zip2 b empty_rows) k (None, sb, tt) =
    List.map (fun y => [y]) (elems b k sb) /\
    halted (zip2 b empty_rows) k (None, sb, tt) = halted b k sb.
Proof.
  induction k as [|k IH]; intro sb;
    unfold elems, halted in *; simpl; [split; reflexivity|].
  destruct (inext b sb) as [[| |y] sb'] eqn:Eb; simpl;
    [split; reflexivity|apply IH|].
  specialize (IH sb').
  destruct (run (zip2 b empty_rows) k (None, sb', tt)) as [[lz hz] rz].
  destruct (run b k sb') as [[lb hb] rb]; simpl in *.
  destruct IH as [IH1 IH2]; split; congruence.
Qed.

Lemma empty_rows_direct : direct (@empty_rows T).
Proof. intros s; simpl; discriminate. Qed.

Lemma combine_singletons (la lb : list T) :
  List.map (fun p => fst p :: snd p)
    (combine la (List.map (fun y => [y]) lb)) =
  List.map (fun p => [fst p; snd p]) (combine la lb).
Proof.
  revert lb; induction la as [|x la IH]; intros [|y lb]; simpl;
    try reflexivity.
  rewrite IH; reflexivity.
Qed.

Lemma zip_pair_run (a b : iterator T) :
  direct a -> direct b ->
  forall k,
    elems (py_zip [a; b]) k (icur (py_zip [a; b])) =
    List.map (fun p => [fst p; snd p])
      (combine (elems a k (icur a)) (elems b k (icur b))) /\
    halted (py_zip [a; b]) k (icur (py_zip [a; b])) =
    halted a k (icur a) || halted b k (icur b).
Proof.
  intros Da Db k.
  assert (direct (zip2 b empty_rows)) as Dr
    by (apply zip2_direct; [exact Db|apply empty_rows_direct]).
  destruct (zip2_run a (zip2 b empty_rows) Da Dr k (icur a) (None, icur b, tt))
    as [He Hh].
  destruct (zip_single_run b k (icur b)) as [He1 Hh1].
  split.
  - etransitivity; [exact He|].
    rewrite He1. apply combine_singletons.
  - etransitivity; [exact Hh|].
    rewrite Hh1. reflexivity.
Qed.
Lemma zip_pair_run_any (a b : iterator T) (k : nat) :
  exists ka kb, (ka <= k)%nat /\ (kb <= k)%nat /\
    elems (py_zip [a; b]) k (icur (py_zip [a; b])) =
    List.map (fun p => [fst p; snd p])
      (combine (elems a ka (icur a)) (elems b kb (icur b))) /\
    halted (py_zip [a; b]) k (icur (py_zip [a; b])) =
    halted a ka (icur a) || halted b kb (icur b) /\
    (halted (py_zip [a; b]) k (icur (py_zip [a; b])) = false ->
     (k <= ka + kb)%nat).
Proof.
  destruct (zip2_run_any a (zip2 b empty_rows) k None (icur a) (None, icur b, tt))
    as [ka [kb [Hka [Hkb [He [Hh Hp]]]]]].
  destruct (zip_single_run b kb (icur b)) as [He1 Hh1].
  exists ka, kb. split; [exact Hka|]. split; [exact Hkb|].
  split; [|split; [|exact Hp]].
  - etransitivity; [exact He|].
    rewrite He1. apply combine_singletons.
  - etransitivity; [exact Hh|].
    rewrite Hh1. reflexivity.
Qed.
End ZipFacts.

(** * [chain] *)

Section ChainFacts.
Context {T : Type} (a b : iterator T).

(** The second loop of the generator is [b]. *)
Lemma chain2_second (k : nat) (sa : istate a) (sb : istate b) :
  run (chain2 a b) k (false, sa, sb) =
  (elems b k sb, halted b k sb, (false, sa, state_after b k sb)).
Proof.
  revert sb; induction k as [|k IH]; intro sb;
    unfold elems, halted, state_after in *; simpl; [reflexivity|].
  destruct (inext b sb) as [[| |y] sb']; simpl; [reflexivity|apply IH|].
  rewrite IH. destruct (run b k sb') as [[l h] r]; reflexivity.
Qed.

(** While [a] has not stopped the generator is in its first loop. *)
Lemma chain2_first (k : nat) (sa : istate a) (sb : istate b) :
  halted a k sa = false ->
  run (chain2 a b) k (true, sa, sb) =
  (elems a k sa, false, (true, state_after a k sa, sb)).
Proof.
  revert sa; induction k as [|k IH]; intro sa;
    unfold elems, halted, state_after in *; simpl; [reflexivity|].
  destruct (inext a sa) as [[| |x] sa']; simpl; [discriminate|apply IH|].
  intro H. specialize (IH sa').
  destruct (run a k sa') as [[l h] r]; simpl in *.
  rewrite (IH H); reflexivity.
Qed.

(** Once [a] has stopped, after [m] turns say, the generator goes on with
    [b] in the turn in which [a] stops. *)
Lemma chain2_then (k : nat) (sa : istate a) (sb : istate b) :
  halted a k sa = true ->
  exists m, (m < k)%nat /\
    forall j,
      elems (chain2 a b) (m + j) (true, sa, sb) = elems a k sa ++ elems b j sb /\
      halted (chain2 a b) (m + j) (true, sa, sb) = halted b j sb.
Proof.
  revert sa; induction k as [|k IH]; intro sa;
    unfold elems, halted in *; simpl; [discriminate|].
  destruct (inext a sa) as [[| |x] sa'] eqn:Ea; simpl.
  - intros _. exists 0%nat; split; [lia|].
    intros [|j]; simpl; [split; reflexivity|].
    rewrite Ea.
    destruct (inext b sb) as [[| |y] sb']; simpl; try (split; reflexivity).
    + rewrite chain2_second; unfold elems, halted.
      destruct (run b j sb') as [[l h] r]; split; reflexivity.
    + rewrite chain2_second; unfold elems, halted.
      destruct (run b j sb') as [[l h] r]; split; reflexivity.
  - intro H. destruct (IH sa' H) as [m [Hm Hj]].
    exists (S m); split; [lia|].
    intro j; simpl; rewrite Ea. apply Hj.
  - intro H. specialize (IH sa').
    destruct (run a k sa') as [[l h] r]; simpl in *.
    destruct (IH H) as [m [Hm Hj]].
    exists (S m); split; [lia|].
    intro j; simpl; rewrite Ea.
    destruct (Hj j) as [H1 H2].
    destruct (run (chain2 a b) (m + j) (true, sa', sb)) as [[lc hc] rc];
      simpl in *.
    split; congruence.
Qed.
End ChainFacts.

Lemma chain2_empty {T : Type} (b : iterator T) (k : nat) :
  forall sb,
    elems (chain2 b empty_iterator) k (true, sb, tt) = elems b k sb /\
    halted (chain2 b empty_iterator) k (true, sb, tt) = halted b k sb.
Proof.
  induction k as [|k IH]; intro sb;
    unfold elems, halted in *; simpl; [split; reflexivity|].
  destruct (inext b sb) as [[| |y] sb']; simpl;
    [split; reflexivity|apply IH|].
  specialize (IH sb').
  destruct (run (chain2 b empty_iterator) k (true, sb', tt)) as [[lc hc] rc].
  destruct (run b k sb') as [[l h] r]; simpl in *.
  destruct IH; split; congruence.
Qed.

(** * The loops of [__len__] and [__str__] *)

Section LenFacts.
Context {T : Type} (it : iterator T).

(** The loop of [__len__] ends when the source stops, with the index of
    the last element in [total]: one less than their number. *)
Lemma len_loop_run (k : nat) : forall (i : Z) (s : istate it) (total : Z),
  len_loop (py_enumerate it 0) k (i, s) total =
  if halted it k s then
    Some (match elems it k s with
          | [] => total
          | _ :: _ => i + Z.of_nat (length (elems it k s)) - 1
          end,
          (i + Z.of_nat (length (elems it k s)), state_after it k s))
  else None.
Proof.
  induction k as [|k IH]; intros i s total;
    unfold elems, halted, state_after in *; simpl; [reflexivity|].
  destruct (inext it s) as [[| |x] s1]; simpl.
  - rewrite Z.add_0_r; reflexivity.
  - apply IH.
  - rewrite IH.
    destruct (run it k s1) as [[l h] r]; cbn [fst snd length].
    destruct h; [|reflexivity].
    destruct l as [|y l]; cbn [length]; repeat (f_equal; try lia).
Qed.
End LenFacts.

(** On a wrapper flagged unbounded [len] answers [-1] in no turn at all and
    leaves the wrapper as it was. *)
Lemma len_unbounded {T : Type} (w : Iter T) (fuel : nat) :
  _infinite w = true -> len fuel w = Some (-1, w).
Proof. intro H; unfold len, __len__; rewrite H; reflexivity. Qed.

(** On a bounded wrapper that has stopped [len] answers the number of
    elements less one, and [0] for none. *)
Lemma len_bounded {T : Type} (w : Iter T) (k : nat) :
  _infinite w = false ->
  exhausted w k = true ->
  option_map fst (len k w) =
  Some (Z.max 0 (Z.of_nat (length (produced w k)) - 1)).
Proof.
  intros Hf Hx. unfold len, __len__; rewrite Hf.
  cbv zeta.
  change (len_loop (_iter (enumerate w 0)) k (icur (_iter (enumerate w 0))) 0)
    with (len_loop (py_enumerate (_iter w) 0) k (0, icur (_iter w)) 0).
  rewrite len_loop_run.
  unfold exhausted in Hx; rewrite Hx. unfold produced.
  destruct (elems (_iter w) k (icur (_iter w))) as [|x l]; cbn [option_map fst length].
  - reflexivity.
  - f_equal; lia.
Qed.

(** * [list(self)]: [collect] and [sort] *)

(** [list(self)] on a bounded wrapper that stops within [k] turns.  By the
    time the list is filled, [__len__] has run the iterator up to its
    [StopIteration]: the list holds what the iterator hands out from there
    on, and none of the elements that came before. *)
Lemma list_self_bounded {T : Type} (w : Iter T) (k : nat) :
  _infinite w = false ->
  exhausted w k = true ->
  list_self k w =
  if halted (_iter w) k (state_after (_iter w) k (icur (_iter w)))
  then Some (Returned
               (elems (_iter w) k (state_after (_iter w) k (icur (_iter w)))),
             moved w (state_after (_iter w) k
                        (state_after (_iter w) k (icur (_iter w)))))
  else None.
Proof.
  intros Hf Hx. unfold list_self, __len__; rewrite Hf.
  cbv zeta.
  change (len_loop (_iter (enumerate w 0)) k (icur (_iter (enumerate w 0))) 0)
    with (len_loop (py_enumerate (_iter w) 0) k (0, icur (_iter w)) 0).
  rewrite len_loop_run.
  unfold exhausted in Hx; rewrite Hx.
  cbn [snd].
  set (s1 := state_after (_iter w) k (icur (_iter w))).
  replace (match elems (_iter w) k (icur (_iter w)) with
           | [] => 0
           | _ :: _ => 0 + Z.of_nat (length (elems (_iter w) k (icur (_iter w)))) - 1
           end <? 0) with false.
  2:{ symmetry; apply Z.ltb_ge.
      destruct (elems (_iter w) k (icur (_iter w))); cbn [length]; lia. }
  change (py_list (_iter (moved w s1)) k (icur (_iter (moved w s1))))
    with (py_list (_iter w) k s1).
  rewrite py_list_run.
  destruct (halted (_iter w) k s1); reflexivity.
Qed.

(** An iterator that has raised [StopIteration] raises it again when it is
    asked once more: then [list(self)] is empty. *)
Lemma list_self_stopped {T : Type} (w : Iter T) (k : nat) :
  _infinite w = false ->
  exhausted w k = true ->
  fst (inext (_iter w) (state_after (_iter w) k (icur (_iter w)))) = Stop ->
  list_self k w =
  Some (Returned [],
        moved w (snd (inext (_iter w)
                        (state_after (_iter w) k (icur (_iter w)))))).
Proof.
  intros Hf Hx Hs.
  rewrite (list_self_bounded w k Hf Hx).
  destruct k as [|k]; [discriminate Hx|].
  set (s1 := state_after (_iter w) (S k) (icur (_iter w))) in *.
  destruct (inext (_iter w) s1) as [e s2] eqn:E; cbn [fst snd] in *.
  subst e.
  assert (run (_iter w) (S k) s1 = ([], true, s2)) as Hr
    by (cbn [run]; rewrite E; reflexivity).
  unfold halted, elems, state_after at 1. rewrite Hr. reflexivity.
Qed.

Lemma collect_stopped {T : Type} (w : Iter T) (k : nat) :
  _infinite w = false ->
  exhausted w k = true ->
  fst (inext (_iter w) (state_after (_iter w) k (icur (_iter w)))) = Stop ->
  collect k w =
  Some (Returned [],
        moved w (snd (inext (_iter w)
                        (state_after (_iter w) k (icur (_iter w)))))).
Proof.
  intros Hf Hx Hs. unfold collect, requires_finite; rewrite Hf.
  apply list_self_stopped; assumption.
Qed.

(** [take(n).collect()]: the list is empty.  [list(self)] has looped
    over the generator for the length of the wrapper before it fills the
    list, and the generator has returned by then. *)
Lemma take_collect {T : Type} (S0 : Iter T) (n k : nat) :
  exhausted S0 k = true \/ (n < length (produced S0 k))%nat ->
  collect k (take S0 (Z.of_nat n)) =
  Some (Returned [],
        moved (take S0 (Z.of_nat n))
          (state_after (_iter (take S0 (Z.of_nat n))) k
             (icur (_iter (take S0 (Z.of_nat n)))))).
Proof.
  intro H.
  assert (exhausted (take S0 (Z.of_nat n)) k = true) as Hx.
  { rewrite take_exhausted. destruct H as [H|H].
    - rewrite H; reflexivity.
    - apply Nat.ltb_lt in H; rewrite H, orb_true_r; reflexivity. }
  pose proof (take_stopped (_iter S0) (Z.of_nat n) k 0 (icur (_iter S0)) Hx)
    as Hs.
  change (state_after
            (gen_for (py_enumerate (_iter S0) 0) (take_body (Z.of_nat n))) k
            (true, (0, icur (_iter S0))))
    with (state_after (_iter (take S0 (Z.of_nat n))) k
            (icur (_iter (take S0 (Z.of_nat n))))) in Hs.
  assert (inext (_iter (take S0 (Z.of_nat n)))
            (state_after (_iter (take S0 (Z.of_nat n))) k
               (icur (_iter (take S0 (Z.of_nat n))))) =
          (Stop, state_after (_iter (take S0 (Z.of_nat n))) k
                   (icur (_iter (take S0 (Z.of_nat n)))))) as Hn.
  { destruct (state_after (_iter (take S0 (Z.of_nat n))) k
                (icur (_iter (take S0 (Z.of_nat n))))) as [alive x].
    cbn [fst] in Hs; subst alive. reflexivity. }
  rewrite (collect_stopped (take S0 (Z.of_nat n)) k eq_refl Hx)
    by (rewrite Hn; reflexivity).
  rewrite Hn. reflexivity.
Qed.

Lemma append_assoc (a b c : string) :
  ((a ++ b) ++ c = a ++ (b ++ c))%string.
Proof. induction a as [|ch a IH]; simpl; [reflexivity|rewrite IH; reflexivity]. Qed.

Lemma append_nil_r (a : string) : (a ++ EmptyString = a)%string.
Proof. induction a as [|ch a IH]; simpl; [reflexivity|rewrite IH; reflexivity]. Qed.

Section StrFacts.
Context {T : Type} (str : T -> string) (it : iterator T).

(** From index [i <= 10] the loop of [__str__] shows the elements of
    indices [i] to [10].  Either the source has them all: the loop shows
    them, adds the dots and breaks, leaving the source where the pull of the
    last one shown left it.  Or it has not: the loop ends when the source
    stops, and shows what there was. *)
Lemma str_loop_run (k : nat) : forall (i : Z) (s : istate it) (text : string),
  0 <= i <= 10 ->
  let m := Z.to_nat (11 - i) in
  ((m <= length (elems it k s))%nat /\
   exists k', (k' <= k)%nat /\ halted it k' s = false /\
     elems it k' s = firstn m (elems it k s) /\
     str_loop str (py_enumerate it 0) k (i, s) text =
     Some ((text ++ (rows str i (firstn m (elems it k s)) ++ "..."))%string,
           (i + Z.of_nat m, state_after it k' s)))
  \/
  ((length (elems it k s) < m)%nat /\
   str_loop str (py_enumerate it 0) k (i, s) text =
   if halted it k s then
     Some ((text ++ rows str i (elems it k s))%string,
           (i + Z.of_nat (length (elems it k s)), state_after it k s))
   else None).
Proof.
  induction k as [|k IH]; intros i s text Hi m.
  - right; split; [simpl; lia|reflexivity].
  - unfold elems, halted, state_after in *; simpl.
    destruct (inext it s) as [[| |x] s1] eqn:E; simpl.
    + right; split; [lia|]. rewrite append_nil_r, Z.add_0_r; reflexivity.
    + destruct (IH i s1 text Hi) as [[Hle [k' [Hk [Hh [He Hr]]]]]|[Hlt Hr]].
      * left; split; [exact Hle|].
        exists (S k'); simpl; rewrite E.
        repeat split; [lia|exact Hh|exact He|exact Hr].
      * right; split; [exact Hlt|exact Hr].
    + destruct (i >=? 10) eqn:Ei.
      * assert (m = 1%nat) as Hm by (subst m; lia).
        left. destruct (run it k s1) as [[l h] r]; cbn [fst snd length].
        split; [lia|].
        exists 1%nat; simpl; rewrite E; cbn [fst snd].
        rewrite Hm; cbn [firstn rows].
        repeat split; [lia|].
        rewrite append_nil_r, append_assoc. reflexivity.
      * assert (0 <= i + 1 <= 10) as Hi' by lia.
        assert (m = S (Z.to_nat (11 - (i + 1)))) as Hm by (subst m; lia).
        destruct (IH (i + 1) s1 (text ++ str_row str (i, x))%string Hi')
          as [[Hle [k' [Hk [Hh [He Hr]]]]]|[Hlt Hr]].
        -- left. rewrite Hr.
           destruct (run it k s1) as [[l h] r]; cbn [fst snd length] in *.
           split; [lia|].
           exists (S k'); simpl; rewrite E.
           destruct (run it k' s1) as [[l' h'] r']; cbn [fst snd] in *.
           rewrite Hm; cbn [firstn rows].
           repeat split; [lia|exact Hh|congruence|].
           rewrite !append_assoc.
           replace (i + Z.of_nat (S (Z.to_nat (11 - (i + 1)))))
             with (i + 1 + Z.of_nat (Z.to_nat (11 - (i + 1)))) by lia.
           reflexivity.
        -- right. rewrite Hr.
           destruct (run it k s1) as [[l h] r]; cbn [fst snd length rows] in *.
           split; [lia|].
           destruct h; [|reflexivity].
           rewrite !append_assoc.
           replace (i + Z.of_nat (S (length l)))
             with (i + 1 + Z.of_nat (length l)) by lia.
           reflexivity.
Qed.
End StrFacts.

(** A source that never answers: [filter] over [count] with a predicate
    that rejects everything.  The loop of [__str__] never gets an element
    and never ends. *)
Lemma str_loop_rejecting_filter (k : nat) : forall (i n : Z) (text : string),
  str_loop str_int
    (py_enumerate (py_filter (fun _ => false) (itertools_count 0 1)) 0)
    k (i, n) text = None.
Proof.
  induction k as [|k IH]; intros i n text; [reflexivity|].
  simpl. apply IH.
Qed.

(** * [square] *)

(** The one place where a flag survives a transformation is [square],
    which sets it again by hand on the result of [map]. *)
Lemma square_sets_flag_itself (start : Z) :
  _infinite (map (count start 1) (fun x => x ^ 2)) = false /\
  _infinite (square start) = true /\
  produced (square 0) 4 = [0; 1; 4; 9].
Proof. repeat split. Qed.

(** * [repeat] with a number of times *)

(** With a number of times above zero that fits in a [ssize_t] the wrapper
    is bounded, hands out the value that many times and stops. *)
Lemma repeat_positive_times {T : Type} (v : T) (n : nat) :
  Z.of_nat (S n) <= PY_SSIZE_T_MAX ->
  exists w,
    repeat v (Some (Z.of_nat (S n))) = Returned w /\
    _infinite w = false /\
    produced w (S (S n)) = List.repeat v (S n) /\
    exhausted w (S (S n)) = true.
Proof.
  intro Hfit.
  assert (truthy (Some (Z.of_nat (S n))) = true) as Ht.
  { unfold truthy. apply negb_true_iff, Z.eqb_neq. lia. }
  exists (__init__ (repeat_object v (Some (Z.of_nat (S n)))) None).
  unfold repeat; rewrite Ht.
  rewrite itertools_repeat_fits
    by (split; [unfold PY_SSIZE_T_MIN, PY_SSIZE_T_MAX; lia|exact Hfit]).
  split; [reflexivity|]. split; [reflexivity|].
  unfold produced, exhausted, elems, halted; cbn [__init__ _iter].
  change (icur (repeat_object v (Some (Z.of_nat (S n)))))
    with (Some (Z.of_nat (S n))).
  rewrite repeat_times_run by lia. split; reflexivity.
Qed.

(** * Primes *)

Section Divisors.

Lemma divide_dec (d n : Z) : d <> 0 -> {(d | n)} + {~ (d | n)}.
Proof.
  intro Hd. destruct (Z.eq_dec (n mod d) 0) as [E|E].
  - left; apply Z.mod_divide; assumption.
  - right; intro H; apply E; apply Z.mod_divide; assumption.
Qed.

(** Search for the least divisor above [1], candidates below [2 + m]. *)
Lemma least_divisor_below (n : Z) (m : nat) :
  (forall d, 1 < d < 2 + Z.of_nat m -> ~ (d | n)) \/
  (exists q, 1 < q < 2 + Z.of_nat m /\ (q | n) /\
             forall d, 1 < d -> (d | n) -> q <= d).
Proof.
  induction m as [|m [IH|[q [Hq [Hqn Hmin]]]]].
  - left; intros d Hd; lia.
  - destruct (divide_dec (2 + Z.of_nat m) n) as [D|D]; [lia| |].
    + right; exists (2 + Z.of_nat m); split; [lia|]. split; [exact D|].
      intros d Hd Hdn.
      destruct (Z_lt_le_dec d (2 + Z.of_nat m)) as [Hlt|Hle]; [|exact Hle].
      exfalso; apply (IH d); [lia|exact Hdn].
    + left; intros d Hd.
      destruct (Z.eq_dec d (2 + Z.of_nat m)) as [->|Hne]; [exact D|].
      apply IH; lia.
  - right; exists q; split; [lia|]. split; assumption.
Qed.

Lemma least_divisor (n : Z) :
  1 < n ->
  exists q, 1 < q <= n /\ (q | n) /\ forall d, 1 < d -> (d | n) -> q <= d.
Proof.
  intro Hn.
  destruct (least_divisor_below n (Z.to_nat n)) as [H|[q [Hq [Hqn Hmin]]]].
  - exfalso; apply (H n); [lia|apply Z.divide_refl].
  - exists q; split; [|split; assumption].
    split; [lia|]. apply Hmin; [lia|apply Z.divide_refl].
Qed.

Lemma least_divisor_prime (n q : Z) :
  1 < q -> (q | n) -> (forall d, 1 < d -> (d | n) -> q <= d) -> Z.prime q.
Proof.
  intros Hq Hqn Hmin. split; [exact Hq|].
  intros e He Heq.
  assert (q <= e) by (apply Hmin; [lia|apply Z.divide_trans with q; assumption]).
  lia.
Qed.

(** A composite number has a prime factor whose square does not exceed
    it. *)
Lemma composite_small_prime_factor (n : Z) :
  1 < n -> ~ Z.prime n ->
  exists p, Z.prime p /\ (p | n) /\ p * p <= n.
Proof.
  intros Hn Hnp.
  destruct (least_divisor n Hn) as [q [Hq [Hqn Hmin]]].
  pose proof (least_divisor_prime n q (proj1 Hq) Hqn Hmin) as Hpq.
  exists q; split; [exact Hpq|]. split; [exact Hqn|].
  destruct Hqn as [e He].
  assert (q <> n) as Hne by (intro; subst q; contradiction).
  assert (1 < e) as He1 by nia.
  assert (q <= e) as Hqe by (apply Hmin; [exact He1|exists q; lia]).
  nia.
Qed.

Lemma divides_fact (n : nat) (d : Z) :
  1 <= d <= Z.of_nat n -> (d | Z.of_nat (fact n)).
Proof.
  induction n as [|n IH]; intro Hd; [lia|].
  change (fact (S n)) with (S n * fact n)%nat.
  rewrite Nat2Z.inj_mul.
  destruct (Z.eq_dec d (Z.of_nat (S n))) as [->|Hne].
  - apply Z.divide_factor_l.
  - apply Z.divide_mul_r, IH; lia.
Qed.

(** There are primes above every number. *)
Lemma prime_above (n : Z) : exists p, Z.prime p /\ n < p.
Proof.
  pose (N := Z.of_nat (fact (Z.to_nat n)) + 1).
  assert (1 < N) as HN.
  { pose proof (lt_O_fact (Z.to_nat n)). unfold N; lia. }
  destruct (least_divisor N HN) as [q [Hq [HqN Hmin]]].
  exists q; split; [apply (least_divisor_prime N q); tauto|].
  destruct (Z_lt_le_dec n q) as [Hlt|Hle]; [exact Hlt|exfalso].
  assert (q | Z.of_nat (fact (Z.to_nat n))) as Hf by (apply divides_fact; lia).
  assert (q | 1) as H1.
  { replace 1 with (N - Z.of_nat (fact (Z.to_nat n))) by (unfold N; lia).
    apply Z.divide_sub_r; assumption. }
  apply Z.divide_1_r_nonneg in H1; lia.
Qed.
End Divisors.

Section Trial.

(** The inner loop: [is_prime] stays true exactly when no prime found so
    far whose square does not exceed the candidate divides it. *)
Lemma trial_spec (l : list Z) (c : Z) :
  StronglySorted Z.lt l ->
  (forall p, In p l -> 0 < p) ->
  (trial l c = true <->
   forall p, In p l -> p * p <= c -> c mod p <> 0).
Proof.
  induction l as [|a r IH]; intros Hs Hpos; simpl.
  - split; [intros _ p []|reflexivity].
  - apply StronglySorted_inv in Hs; destruct Hs as [Hs Ha].
    rewrite Forall_forall in Ha.
    assert (0 < a) as Ha0 by (apply Hpos; left; reflexivity).
    assert (forall p, In p r -> 0 < p) as Hpos' by (intros p Hp; apply Hpos; right; exact Hp).
    specialize (IH Hs Hpos').
    rewrite Z.gtb_ltb.
    destruct (c <? a * a) eqn:E1.
    + apply Z.ltb_lt in E1. split; [|reflexivity].
      intros _ p [->|Hp] Hpp; [lia|].
      specialize (Ha p Hp). nia.
    + apply Z.ltb_ge in E1.
      destruct (c mod a =? 0) eqn:E2.
      * apply Z.eqb_eq in E2. split; [discriminate|].
        intro H. exfalso. apply (H a); [left; reflexivity|exact E1|exact E2].
      * apply Z.eqb_neq in E2. rewrite IH. split.
        -- intros H p [->|Hp]; [intros _; exact E2|apply H; exact Hp].
        -- intros H p Hp; apply H; right; exact Hp.
Qed.

Lemma primes_upto_positive (ps : list Z) (n : Z) :
  primes_upto ps n -> forall p, In p ps -> 0 < p.
Proof.
  intros [_ H] p Hp. apply H in Hp. destruct Hp as [[Hp _] _]. lia.
Qed.

(** With all the primes below the candidate at hand the inner loop decides
    whether the candidate is prime. *)
Lemma trial_decides_prime (ps : list Z) (c : Z) :
  1 < c -> primes_upto ps (c - 1) ->
  (trial ps c = true <-> Z.prime c).
Proof.
  intros Hc Hps.
  rewrite (trial_spec ps c (proj1 Hps) (primes_upto_positive ps (c - 1) Hps)).
  destruct Hps as [_ Hin]. split.
  - intro H.
    destruct (least_divisor c Hc) as [q [Hq [Hqc Hmin]]].
    pose proof (least_divisor_prime c q (proj1 Hq) Hqc Hmin) as Hpq.
    destruct (Z.eq_dec q c) as [->|Hne]; [exact Hpq|exfalso].
    destruct Hqc as [e He].
    assert (1 < e) as He1 by nia.
    assert (q <= e) as Hqe by (apply Hmin; [exact He1|exists q; lia]).
    apply (H q).
    + apply Hin; split; [exact Hpq|lia].
    + nia.
    + apply Z.mod_divide; [lia|exists e; exact He].
  - intros [_ Hprime] p Hp _ Hmod.
    apply Hin in Hp. destruct Hp as [[Hp1 _] Hpc].
    apply (Hprime p); [lia|].
    apply Z.mod_divide; [lia|exact Hmod].
Qed.

Lemma sorted_snoc (l : list Z) (c : Z) :
  StronglySorted Z.lt l -> (forall p, In p l -> p < c) ->
  StronglySorted Z.lt (l ++ [c]).
Proof.
  induction l as [|a r IH]; intros Hs Hlt; simpl.
  - constructor; constructor.
  - apply StronglySorted_inv in Hs; destruct Hs as [Hs Ha].
    constructor.
    + apply IH; [exact Hs|intros p Hp; apply Hlt; right; exact Hp].
    + apply Forall_app; split; [exact Ha|].
      constructor; [apply Hlt; left; reflexivity|constructor].
Qed.

Lemma even_not_prime (n : Z) : 2 < n -> (2 | n) -> ~ Z.prime n.
Proof. intros Hn H2 [_ Hp]. apply (Hp 2); [lia|exact H2]. Qed.

(** One more candidate: the odd number [c], all primes below it known. *)
Lemma primes_upto_next (ps : list Z) (c : Z) :
  2 < c -> (2 | c + 1) -> primes_upto ps (c - 1) ->
  primes_upto (ps ++ (if trial ps c then [c] else [])) (c + 1).
Proof.
  intros Hc Heven Hps.
  pose proof (trial_decides_prime ps c ltac:(lia) Hps) as Ht.
  destruct Hps as [Hs Hin].
  assert (~ Z.prime (c + 1)) as Hnp by (apply even_not_prime; [lia|exact Heven]).
  destruct (trial ps c).
  - assert (Z.prime c) as Hpc by (apply Ht; reflexivity).
    split.
    + apply sorted_snoc; [exact Hs|].
      intros p Hp; apply Hin in Hp; lia.
    + intro p. rewrite in_app_iff, Hin. simpl. split.
      * intros [[Hp Hle]|[<-|[]]]; [split; [exact Hp|lia]|split; [exact Hpc|lia]].
      * intros [Hp Hle].
        destruct (Z.eq_dec p (c + 1)) as [->|H1]; [contradiction|].
        destruct (Z.eq_dec p c) as [->|H2]; [right; left; reflexivity|].
        left; split; [exact Hp|lia].
  - assert (~ Z.prime c) as Hpc by (intro H; apply Ht in H; discriminate).
    rewrite app_nil_r. split; [exact Hs|].
    intro p. rewrite Hin. split.
    + intros [Hp Hle]; split; [exact Hp|lia].
    + intros [Hp Hle].
      destruct (Z.eq_dec p (c + 1)) as [->|H1]; [contradiction|].
      destruct (Z.eq_dec p c) as [->|H2]; [contradiction|].
      split; [exact Hp|lia].
Qed.
End Trial.

Section PrimesGenerator.

Lemma primes_turn (s : primes_state) :
  s <> PrimesNew ->
  run primes_gen 1 s =
  (if trial (primes_known s) (primes_candidate s)
   then [primes_candidate s] else [],
   false,
   snd (primes_iteration (primes_known s) (primes_candidate s))).
Proof.
  intro Hs.
  assert (inext primes_gen s =
          primes_iteration (primes_known s) (primes_candidate s)) as E
    by (destruct s; [contradiction|reflexivity..]).
  cbn [run]. rewrite E. unfold primes_iteration.
  destruct (trial (primes_known s) (primes_candidate s)); reflexivity.
Qed.

Lemma primes_iteration_state (ps : list Z) (c : Z) :
  let s' := snd (primes_iteration ps c) in
  s' <> PrimesNew /\
  primes_known s' = ps ++ (if trial ps c then [c] else []) /\
  primes_candidate s' = c + 2.
Proof.
  unfold primes_iteration. destruct (trial ps c); simpl.
  - repeat split; discriminate.
  - rewrite app_nil_r. repeat split; discriminate.
Qed.

Lemma primes_upto_two : primes_upto [2] 2.
Proof.
  split.
  - constructor; constructor.
  - intro p; simpl; split.
    + intros [<-|[]]; split; [exact Z.prime_2|lia].
    + intros [[Hp _] Hle]; left; lia.
Qed.

(** After [k + 1] turns the generator has not returned, has produced the
    primes it knows, which are the primes up to [2 (k + 1)], and tests
    [2 (k + 1) + 1] next. *)
Lemma primes_run (k : nat) :
  let s := state_after primes_gen (S k) PrimesNew in
  halted primes_gen (S k) PrimesNew = false /\
  elems primes_gen (S k) PrimesNew = primes_known s /\
  s <> PrimesNew /\
  primes_candidate s = 2 * Z.of_nat (S k) + 1 /\
  primes_upto (primes_known s) (2 * Z.of_nat (S k)).
Proof.
  induction k as [|k IH].
  - cbv zeta. change (state_after primes_gen 1 PrimesNew) with PrimesFirst.
    split; [reflexivity|]. split; [reflexivity|]. split; [discriminate|].
    split; [reflexivity|]. exact primes_upto_two.
  - cbv zeta in *.
    destruct IH as [Hh [He [Hs [Hc Hp]]]].
    replace (S (S k)) with (S k + 1)%nat by lia.
    rewrite halted_add, elems_add, state_after_add, Hh by exact Hh.
    set (s := state_after primes_gen (S k) PrimesNew) in *.
    rewrite He.
    unfold halted, elems, state_after; rewrite (primes_turn s Hs).
    cbn [fst snd orb].
    destruct (primes_iteration_state (primes_known s) (primes_candidate s))
      as [Hs' [Hk' Hc']].
    split; [reflexivity|].
    split; [rewrite Hk'; reflexivity|].
    split; [exact Hs'|].
    split; [rewrite Hc', Hc; lia|].
    rewrite Hk'.
    replace (2 * Z.of_nat (S k + 1)) with (primes_candidate s + 1) by lia.
    apply primes_upto_next.
    + lia.
    + exists (Z.of_nat (S k) + 1); lia.
    + replace (primes_candidate s - 1) with (2 * Z.of_nat (S k)) by lia.
      exact Hp.
Qed.

Lemma primes_next_turn (k : nat) :
  elems primes_gen (S (S k)) PrimesNew =
  elems primes_gen (S k) PrimesNew ++
  (if trial (elems primes_gen (S k) PrimesNew) (2 * Z.of_nat (S k) + 1)
   then [2 * Z.of_nat (S k) + 1] else []).
Proof.
  destruct (primes_run k) as [Hh [He [Hs [Hc _]]]].
  replace (S (S k)) with (S k + 1)%nat by lia.
  rewrite elems_add, Hh. f_equal.
  unfold elems at 1. rewrite (primes_turn _ Hs). cbn [fst].
  rewrite <- He, Hc. reflexivity.
Qed.

(** Every prime is produced, so arbitrarily many elements are. *)
Lemma primes_unbounded (n : nat) :
  exists k, (n <= length (elems primes_gen k PrimesNew))%nat.
Proof.
  induction n as [|n [k Hk]]; [exists 0%nat; simpl; lia|].
  destruct (prime_above (2 * Z.of_nat (S k))) as [p [Hp Hlt]].
  pose (j := Z.to_nat p).
  assert (j = S (Nat.pred j)) as Hj by (unfold j; lia).
  exists j.
  destruct (primes_run k) as [_ [He [_ [_ [Hsk Hink]]]]].
  destruct (primes_run (Nat.pred j)) as [_ [He' [_ [_ [_ Hinj]]]]].
  rewrite <- Hj in He', Hinj. rewrite <- He in Hsk, Hink. rewrite <- He' in Hinj.
  assert (length (elems primes_gen k PrimesNew)
          <= length (elems primes_gen (S k) PrimesNew))%nat as Hmono.
  { replace (S k) with (k + 1)%nat by lia. rewrite elems_add.
    destruct (halted primes_gen k PrimesNew); [lia|].
    rewrite length_app; lia. }
  assert (length (p :: elems primes_gen (S k) PrimesNew)
          <= length (elems primes_gen j PrimesNew))%nat as Hlen.
  { apply NoDup_incl_length.
    - constructor.
      + intro Hin. apply Hink in Hin. lia.
      + clear - Hsk. induction Hsk as [|a l Hs IH Ha]; constructor; [|exact IH].
        intro Hin. rewrite Forall_forall in Ha. specialize (Ha a Hin). lia.
    - intros q [<-|Hq].
      + apply Hinj; split; [exact Hp|unfold j; lia].
      + apply Hinj. apply Hink in Hq. split; [tauto|unfold j; lia]. }
  simpl in Hlen. lia.
Qed.
End PrimesGenerator.

(** * The claims *)

(** C1, as the code has it. [map], [filter], [filter_map] and [enumerate]
    build the new wrapper with [Iter(...)] and leave [infinite] out, so the
    flag of the result is false whatever the flag of [w] is: it is the flag
    of [w] for a bounded [w] only. *)
Theorem lazy_transformations_clear_flag {T U : Type} (w : Iter T)
    (f : T -> U) (pred : T -> bool) (g : T -> option U) (start : Z) :
  _infinite (map w f) = false /\
  _infinite (filter w pred) = false /\
  _infinite (filter_map w g) = false /\
  _infinite (enumerate w start) = false.
Proof. repeat split. Qed.

(** C1 fails on [count()]: the wrapper is flagged unbounded, none of the
    four results is. *)
Lemma count_loses_flag :
  _infinite (count 0 1) = true /\
  _infinite (map (count 0 1) Z.succ) <> _infinite (count 0 1) /\
  _infinite (filter (count 0 1) Z.even) <> _infinite (count 0 1) /\
  _infinite (filter_map (count 0 1) (fun x => Some x)) <> _infinite (count 0 1) /\
  _infinite (enumerate (count 0 1) 0) <> _infinite (count 0 1).
Proof. repeat split; discriminate. Qed.

(** C2, as the code has it. [a.zip(b)] pairs the elements of [a] and [b]
    position by position and stops with the first of them that stops: what
    it has produced after [k] turns is the pairing of what [a] and [b] have
    produced in the turns they were given, it has stopped exactly when one
    of them has, and until then each of its turns is a turn of an operand;
    with operands that answer every pull at once, a turn of it is a turn of
    both.  The flag of the result is false whatever the flags of the
    operands: [count().zip(range(5))] is flagged bounded, hands out five
    pairs and stops, and
    [count().zip(count())], which never stops, is flagged bounded as well. *)
Theorem zip_pairs_and_clears_flag {T : Type} (a b : Iter T)
    (others : list (Iter T)) :
  _infinite (zip a others) = false /\
  (forall k, exists ka kb,
     (ka <= k)%nat /\ (kb <= k)%nat /\
     produced (zip a [b]) k =
     List.map (fun p => [fst p; snd p]) (combine (produced a ka) (produced b kb)) /\
     exhausted (zip a [b]) k = exhausted a ka || exhausted b kb /\
     (exhausted (zip a [b]) k = false -> (k <= ka + kb)%nat)) /\
  (direct (_iter a) -> direct (_iter b) ->
   forall k,
     produced (zip a [b]) k =
     List.map (fun p => [fst p; snd p]) (combine (produced a k) (produced b k)) /\
     exhausted (zip a [b]) k = exhausted a k || exhausted b k) /\
  (exists r,
     range [5] = Some r /\
     _infinite (zip (count 0 1) [r]) = false /\
     produced (zip (count 0 1) [r]) 6 =
     [[0; 0]; [1; 1]; [2; 2]; [3; 3]; [4; 4]] /\
     exhausted (zip (count 0 1) [r]) 6 = true) /\
  _infinite (zip (count 0 1) [count 0 1]) = false /\
  (forall k, exhausted (zip (count 0 1) [count 0 1]) k = false).
Proof.
  split; [reflexivity|].
  split.
  { intro k. exact (zip_pair_run_any (_iter a) (_iter b) k). }
  split.
  { intros Da Db k. exact (zip_pair_run (_iter a) (_iter b) Da Db k). }
  split.
  { eexists; split; [reflexivity|]. split; [reflexivity|]. split; reflexivity. }
  split; [reflexivity|].
  intro k.
  destruct (zip_pair_run (itertools_count 0 1) (itertools_count 0 1)
              (itertools_count_direct 0 1) (itertools_count_direct 0 1) k)
    as [_ Hh].
  unfold exhausted.
  etransitivity; [exact Hh|].
  rewrite itertools_count_never_halts; reflexivity.
Qed.

Lemma zip_pairs_and_clears_flag_witness :
  produced (zip (count 0 1) [__init__ (py_range 0 5 1) None]) 7 =
  List.map (fun p => [fst p; snd p])
    (combine (produced (count 0 1) 7)
             (produced (__init__ (py_range 0 5 1) None) 7)) /\
  exhausted (zip (count 0 1) [__init__ (py_range 0 5 1) None]) 7 =
  exhausted (count 0 1) 7 || exhausted (__init__ (py_range 0 5 1) None) 7.
Proof.
  apply (proj1 (proj2 (proj2 (zip_pairs_and_clears_flag
                                (count 0 1) (__init__ (py_range 0 5 1) None) [])))).
  - apply itertools_count_direct.
  - apply py_range_direct.
Defined.

(** C2 fails on [count().zip(count())]: both operands are flagged
    unbounded, the result is not. *)
Lemma zip_of_counts_is_flagged_bounded :
  ~ (_infinite (zip (count 0 1) [count 0 1]) = true <->
     _infinite (count 0 1) = true /\ _infinite (count 0 1) = true).
Proof.
  intros [_ H]. specialize (H (conj eq_refl eq_refl)). discriminate H.
Qed.

(** C3, as the code has it. [a.chain(b)] hands out the elements of [a] in
    order and, once [a] has stopped, those of [b] in order; the flag of the
    result is false whatever the flags of the operands; and
    [range(3).chain(count()).take(5)] hands out [0, 1, 2, 0, 1] and
    stops. *)
Theorem chain_appends_and_clears_flag {T : Type} (a b : Iter T)
    (others : list (Iter T)) :
  _infinite (chain a others) = false /\
  (forall k,
     exhausted a k = false ->
     produced (chain a [b]) k = produced a k /\
     exhausted (chain a [b]) k = false) /\
  (forall k,
     exhausted a k = true ->
     exists m, (m < k)%nat /\
       forall j,
         produced (chain a [b]) (m + j) = produced a k ++ produced b j /\
         exhausted (chain a [b]) (m + j) = exhausted b j) /\
  (exists r,
     range [3] = Some r /\
     produced (take (chain r [count 0 1]) 5) 6 = [0; 1; 2; 0; 1] /\
     exhausted (take (chain r [count 0 1]) 5) 6 = true).
Proof.
  split; [reflexivity|].
  split.
  { intros k H. unfold produced, exhausted, elems, halted in *.
    change (run (_iter (chain a [b])) k (icur (_iter (chain a [b]))))
      with (run (chain2 (_iter a) (chain2 (_iter b) empty_iterator)) k
              (true, icur (_iter a), (true, icur (_iter b), tt))).
    rewrite chain2_first by exact H.
    split; reflexivity. }
  split.
  { intros k H.
    destruct (chain2_then (_iter a) (chain2 (_iter b) empty_iterator) k
                (icur (_iter a)) (true, icur (_iter b), tt) H) as [m [Hm Hj]].
    exists m; split; [exact Hm|].
    intro j. destruct (Hj j) as [H1 H2].
    destruct (chain2_empty (_iter b) j (icur (_iter b))) as [H3 H4].
    unfold produced, exhausted.
    split.
    - etransitivity; [exact H1|]. rewrite H3; reflexivity.
    - etransitivity; [exact H2|]. exact H4. }
  eexists; split; [reflexivity|]. split; reflexivity.
Qed.

Lemma chain_appends_and_clears_flag_witness :
  (produced (chain (count 0 1) [count 5 1]) 3 = produced (count 0 1) 3 /\
   exhausted (chain (count 0 1) [count 5 1]) 3 = false) /\
  (exists m, (m < 4)%nat /\
     forall j,
       produced (chain (__init__ (py_range 0 3 1) None) [count 0 1]) (m + j) =
       produced (__init__ (py_range 0 3 1) None) 4 ++ produced (count 0 1) j /\
       exhausted (chain (__init__ (py_range 0 3 1) None) [count 0 1]) (m + j) =
       exhausted (count 0 1) j).
Proof.
  split.
  - apply (proj1 (proj2 (chain_appends_and_clears_flag
                           (count 0 1) (count 5 1) []))).
    reflexivity.
  - apply (proj1 (proj2 (proj2 (chain_appends_and_clears_flag
                                  (__init__ (py_range 0 3 1) None) (count 0 1) [])))).
    reflexivity.
Defined.

(** C3 fails on [range(3).chain(count())]: an operand is flagged
    unbounded, the result is not.  And [collect] on its [take(5)] returns
    the empty list, not [[0, 1, 2, 0, 1]]. *)
Lemma chain_with_count_is_flagged_bounded :
  exists r,
    range [3] = Some r /\
    ~ (_infinite (chain r [count 0 1]) = true <->
       _infinite r = true \/ _infinite (count 0 1) = true) /\
    option_map fst (collect 6 (take (chain r [count 0 1]) 5)) =
    Some (Returned []) /\
    @Returned (list Z) [] <> Returned [0; 1; 2; 0; 1].
Proof.
  eexists; split; [reflexivity|].
  split; [|split; [reflexivity|discriminate]].
  intros [_ H]. specialize (H (or_intror eq_refl)). discriminate H.
Qed.

(** C4, the code on a bounded wrapper of three elements: [len] answers [2],
    the index of the last one, where the wrapper hands out three elements;
    on a wrapper of none it answers [0]. *)
Theorem len_of_three_is_two :
  option_map fst (len 4 (__init__ (list_iterator [7; 8; 9]) None)) = Some 2 /\
  produced (__init__ (list_iterator [7; 8; 9]) None) 4 = [7; 8; 9] /\
  exhausted (__init__ (list_iterator [7; 8; 9]) None) 4 = true /\
  option_map fst (len 1 (__init__ (list_iterator (@nil Z)) None)) = Some 0.
Proof. repeat split. Qed.

(** C5, the code at [times = 0]. [if times:] takes [0] for an argument left
    out: [repeat(v, 0)] is the endless wrapper, flagged unbounded and handing
    out [v] turn after turn, where the claim has a bounded wrapper holding
    nothing. *)
Theorem repeat_zero_times_is_endless {T : Type} (v : T) :
  exists w,
    repeat v (Some 0) = Returned w /\
    _infinite w = true /\
    forall k,
      produced w k = List.repeat v k /\
      exhausted w k = false.
Proof.
  exists (__init__ (repeat_object v None) (Some true)).
  split; [reflexivity|].
  split; [reflexivity|].
  intro k. unfold produced, exhausted, elems, halted.
  change (run (_iter (__init__ (repeat_object v None) (Some true))) k
            (icur (_iter (__init__ (repeat_object v None) (Some true)))))
    with (run (repeat_object v None) k None).
  rewrite repeat_endless_run. split; reflexivity.
Qed.

(** C6. On a wrapper flagged unbounded, [sum], [sort] and [collect] raise
    [InfiniteIteratorError] whatever number of turns they are given, none
    included, and hand the wrapper back as it was: nothing has been pulled.
    The message names the method and says to use [take(n)] first. *)
Theorem finite_only_methods_raise_first {T : Type} (lt : T -> T -> bool)
    (w : Iter T) (wz : Iter Z) (fuel : nat) (reverse : bool) :
  _infinite w = true ->
  _infinite wz = true ->
  sum fuel wz =
  Some (Raised (InfiniteIteratorError
                  ("Cannot call sum() on infinite iterator" ++ newline ++
                   "Use .take(n).sum() first to limit the iterator")), wz) /\
  sort lt fuel reverse w =
  Some (Raised (InfiniteIteratorError
                  ("Cannot call sort() on infinite iterator" ++ newline ++
                   "Use .take(n).sort() first to limit the iterator")), w) /\
  collect fuel w =
  Some (Raised (InfiniteIteratorError
                  ("Cannot call collect() on infinite iterator" ++ newline ++
                   "Use .take(n).collect() first to limit the iterator")), w).
Proof.
  intros Hw Hz.
  unfold sum, sort, collect, requires_finite.
  rewrite Hw, Hz. repeat split.
Qed.

Lemma finite_only_methods_raise_first_witness :
  sum 0 (count 0 1) =
  Some (Raised (InfiniteIteratorError
                  ("Cannot call sum() on infinite iterator" ++ newline ++
                   "Use .take(n).sum() first to limit the iterator")), count 0 1) /\
  sort Z.ltb 0 false primes =
  Some (Raised (InfiniteIteratorError
                  ("Cannot call sort() on infinite iterator" ++ newline ++
                   "Use .take(n).sort() first to limit the iterator")), primes) /\
  collect 0 primes =
  Some (Raised (InfiniteIteratorError
                  ("Cannot call collect() on infinite iterator" ++ newline ++
                   "Use .take(n).collect() first to limit the iterator")), primes).
Proof.
  apply (finite_only_methods_raise_first Z.ltb primes (count 0 1) 0 false);
    reflexivity.
Defined.

(** C7, the code. For every wrapper [S0] and every [n >= 0], [S0.take(n)]
    is flagged bounded and hands out exactly the first
    [min n (length of S0)] elements of [S0], in order: turn by turn it has
    produced the first [n] of what [S0] has produced, and it has stopped once
    [S0] has stopped or has produced more than [n] elements; for a source
    that answers every pull and never stops, these are [n] elements, those
    of the first [n] pulls of [S0].  But [S0.take(n).collect()] is not that
    list: whenever it returns, it returns the empty list and leaves the
    wrapper spent.  On [count().take(3)], which hands out [0, 1, 2],
    [collect] returns [[]]. *)
Theorem take_first_n {T : Type} (S0 : Iter T) (n : nat) :
  _infinite (take S0 (Z.of_nat n)) = false /\
  (forall k, produced (take S0 (Z.of_nat n)) k = firstn n (produced S0 k)) /\
  (forall k,
     exhausted (take S0 (Z.of_nat n)) k =
     exhausted S0 k || (n <? length (produced S0 k))%nat) /\
  (forall k,
     exhausted S0 k = true \/ (n < length (produced S0 k))%nat ->
     length (produced (take S0 (Z.of_nat n)) k) =
     Nat.min n (length (produced S0 k)) /\
     exists st,
       collect k (take S0 (Z.of_nat n)) =
       Some (Returned [], moved (take S0 (Z.of_nat n)) st) /\
       forall j, produced (moved (take S0 (Z.of_nat n)) st) j = []) /\
  (direct (_iter S0) -> (forall k, exhausted S0 k = false) ->
   produced (take S0 (Z.of_nat n)) (S n) = produced S0 n /\
   length (produced S0 n) = n /\
   exhausted (take S0 (Z.of_nat n)) (S n) = true /\
   exists st,
     collect (S n) (take S0 (Z.of_nat n)) =
     Some (Returned [], moved (take S0 (Z.of_nat n)) st)) /\
  produced (take (count 0 1) 3) 4 = [0; 1; 2] /\
  exhausted (take (count 0 1) 3) 4 = true /\
  option_map fst (collect 4 (take (count 0 1) 3)) = Some (Returned []).
Proof.
  split; [reflexivity|].
  split; [apply take_produced|].
  split; [apply take_exhausted|].
  split.
  { intros k H.
    split; [rewrite take_produced; apply length_firstn|].
    eexists; split; [exact (take_collect S0 n k H)|].
    assert (exhausted (take S0 (Z.of_nat n)) k = true) as Hx.
    { rewrite take_exhausted. destruct H as [H|H].
      - rewrite H; reflexivity.
      - apply Nat.ltb_lt in H; rewrite H, orb_true_r; reflexivity. }
    pose proof (take_stopped (_iter S0) (Z.of_nat n) k 0 (icur (_iter S0)) Hx)
      as Hs.
    intro j. unfold produced.
    change (_iter (moved (take S0 (Z.of_nat n))
                     (state_after (_iter (take S0 (Z.of_nat n))) k
                        (icur (_iter (take S0 (Z.of_nat n)))))))
      with (at_state (gen_for (py_enumerate (_iter S0) 0) (take_body (Z.of_nat n)))
              (state_after
                 (gen_for (py_enumerate (_iter S0) 0) (take_body (Z.of_nat n))) k
                 (true, (0, icur (_iter S0))))).
    cbn [at_state icur].
    destruct (state_after
                (gen_for (py_enumerate (_iter S0) 0) (take_body (Z.of_nat n))) k
                (true, (0, icur (_iter S0)))) as [alive x].
    cbn [fst] in Hs; subst alive.
    destruct j; reflexivity. }
  split; [|repeat split].
  intros D Hnever.
  assert (forall k, length (produced S0 k) = k) as Hlen.
  { intro k; apply direct_elems_length; [exact D|apply Hnever]. }
  split.
  { rewrite take_produced. unfold produced in *.
    replace (S n) with (n + 1)%nat by lia.
    rewrite elems_add.
    specialize (Hnever n); unfold exhausted in Hnever; rewrite Hnever.
    rewrite firstn_app, Hlen, Nat.sub_diag, firstn_O, app_nil_r.
    apply firstn_all2; rewrite Hlen; lia. }
  split; [apply Hlen|].
  split.
  { rewrite take_exhausted, Hlen, Hnever.
    replace (n <? S n)%nat with true by (symmetry; apply Nat.ltb_lt; lia).
    reflexivity. }
  eexists. apply take_collect. right; rewrite Hlen; lia.
Qed.

Lemma take_first_n_witness :
  (length (produced (take (__init__ (list_iterator [5; 6]) None) 3) 9) =
   Nat.min 3 (length (produced (__init__ (list_iterator [5; 6]) None) 9)) /\
   exists st,
     collect 9 (take (__init__ (list_iterator [5; 6]) None) 3) =
     Some (Returned [],
           moved (take (__init__ (list_iterator [5; 6]) None) 3) st) /\
     forall j,
       produced (moved (take (__init__ (list_iterator [5; 6]) None) 3) st) j = []) /\
  (produced (take (count 0 1) 3) 4 = produced (count 0 1) 3 /\
   length (produced (count 0 1) 3) = 3%nat /\
   exhausted (take (count 0 1) 3) 4 = true /\
   exists st,
     collect 4 (take (count 0 1) 3) =
     Some (Returned [], moved (take (count 0 1) 3) st)).
Proof.
  split.
  - apply (proj1 (proj2 (proj2 (proj2
             (take_first_n (__init__ (list_iterator [5; 6]) None) 3))))).
    left; reflexivity.
  - apply (proj1 (proj2 (proj2 (proj2 (proj2 (take_first_n (count 0 1) 3)))))).
    + apply itertools_count_direct.
    + intro k; apply itertools_count_never_halts.
Defined.

(** C8, as the code has it. The preview shows the first eleven
    [(index, element)] pairs at most and pulls no element beyond those it
    shows, whatever the flag; the dots are there exactly when eleven pairs
    are shown, that is when the sequence has eleven elements or more:
    whether a twelfth exists is never looked at.  With ten elements or fewer
    all pairs are shown without dots.  It returns as soon as the source has
    stopped or has handed out eleven elements, within eleven turns for a
    source that answers every pull. *)
Theorem str_shows_at_most_eleven {T : Type} (str : T -> string) (w : Iter T) :
  (forall k,
     exhausted w k = true \/ (11 <= length (produced w k))%nat ->
     exists k',
       (k' <= k)%nat /\
       __str__ str k w =
       Some ((rows str 0 (firstn 11 (produced w k)) ++
              (if (11 <=? length (produced w k))%nat then "..." else EmptyString))%string,
             moved w (state_after (_iter w) k' (icur (_iter w)))) /\
       produced w k' = firstn 11 (produced w k)) /\
  (direct (_iter w) -> exists text w', __str__ str 11 w = Some (text, w')).
Proof.
  assert (forall k,
     exhausted w k = true \/ (11 <= length (produced w k))%nat ->
     exists k',
       (k' <= k)%nat /\
       __str__ str k w =
       Some ((rows str 0 (firstn 11 (produced w k)) ++
              (if (11 <=? length (produced w k))%nat then "..." else EmptyString))%string,
             moved w (state_after (_iter w) k' (icur (_iter w)))) /\
       produced w k' = firstn 11 (produced w k)) as Hmain.
  { intros k H.
    unfold __str__; cbv zeta.
    change (str_loop str (_iter (enumerate w 0)) k (icur (_iter (enumerate w 0))) EmptyString)
      with (str_loop str (py_enumerate (_iter w) 0) k (0, icur (_iter w)) EmptyString).
    destruct (str_loop_run str (_iter w) k 0 (icur (_iter w)) EmptyString)
      as [[Hle [k' [Hk [Hh [He Hr]]]]]|[Hlt Hr]]; [lia| |].
    - change (Z.to_nat (11 - 0)) with 11%nat in *.
      exists k'. split; [exact Hk|].
      unfold produced. split; [|exact He].
      rewrite Hr. apply Nat.leb_le in Hle; rewrite Hle. reflexivity.
    - change (Z.to_nat (11 - 0)) with 11%nat in *.
      destruct H as [H|H]; [|unfold produced in H; lia].
      exists k. split; [lia|].
      unfold exhausted in H. unfold produced.
      rewrite Hr, H.
      assert ((11 <=? length (elems (_iter w) k (icur (_iter w))))%nat = false)
        as Hb by (apply Nat.leb_gt; exact Hlt).
      rewrite Hb, append_nil_r, firstn_all2 by lia.
      split; reflexivity. }
  split; [exact Hmain|].
  intro D.
  destruct (Hmain 11%nat) as [k' [_ [Hs _]]].
  - destruct (exhausted w 11) eqn:E; [left; reflexivity|right].
    unfold produced. rewrite direct_elems_length; [lia|exact D|exact E].
  - eexists; eexists; exact Hs.
Qed.

Lemma str_shows_at_most_eleven_witness :
  (exists k',
     (k' <= 5)%nat /\
     __str__ str_int 5 (__init__ (list_iterator [4; 5]) None) =
     Some ((rows str_int 0
              (firstn 11 (produced (__init__ (list_iterator [4; 5]) None) 5)) ++
            (if (11 <=? length (produced (__init__ (list_iterator [4; 5]) None) 5))%nat
             then "..." else EmptyString))%string,
           moved (__init__ (list_iterator [4; 5]) None)
             (state_after (list_iterator [4; 5]) k' [4; 5])) /\
     produced (__init__ (list_iterator [4; 5]) None) k' =
     firstn 11 (produced (__init__ (list_iterator [4; 5]) None) 5)) /\
  (exists text w',
     __str__ str_int 11 (__init__ (list_iterator [4; 5]) None) = Some (text, w')).
Proof.
  split.
  - apply (proj1 (str_shows_at_most_eleven str_int
                    (__init__ (list_iterator [4; 5]) None)) 5%nat).
    left; reflexivity.
  - apply (proj2 (str_shows_at_most_eleven str_int
                    (__init__ (list_iterator [4; 5]) None))).
    apply list_iterator_direct.
Defined.

(** C8 fails twice.  On a sequence of exactly eleven elements the preview
    ends with the dots although the source has nothing left.  And on
    [count().filter(lambda x: False)], whose first pull never returns, the
    preview does not return however many turns it is given. *)
Lemma preview_dots_at_eleven_and_hang :
  (exists r w',
     range [11] = Some r /\
     __str__ str_int 11 r =
     Some ((rows str_int 0 [0; 1; 2; 3; 4; 5; 6; 7; 8; 9; 10] ++ "...")%string, w') /\
     exhausted w' 1 = true /\
     produced w' 1 = []) /\
  (forall k, __str__ str_int k (filter (count 0 1) (fun _ => false)) = None).
Proof.
  split.
  - eexists; eexists. split; [reflexivity|].
    split; [vm_compute; reflexivity|].
    split; reflexivity.
  - intro k. unfold __str__; cbv zeta.
    change (str_loop str_int
              (_iter (enumerate (filter (count 0 1) (fun _ => false)) 0)) k
              (icur (_iter (enumerate (filter (count 0 1) (fun _ => false)) 0))) EmptyString)
      with (str_loop str_int
              (py_enumerate (py_filter (fun _ => false) (itertools_count 0 1)) 0)
              k (0, 0) EmptyString).
    rewrite str_loop_rejecting_filter. reflexivity.
Qed.

(** C9, the code. [primes()] hands out the prime numbers, all of them and nothing
    else, in strictly ascending order: [2] first; after [k + 1] turns it has
    not stopped and has produced exactly the primes up to [2 (k + 1)],
    ascending; the next turn produces the odd candidate [2 (k + 1) + 1] when
    no prime found so far whose square does not exceed it divides it, and
    nothing otherwise; elements keep coming without end; and
    [primes().take(6)] hands out [2, 3, 5, 7, 11, 13] and stops.  But
    [primes().take(6).collect()] is not that list: the code returns the
    empty list. *)
Theorem primes_yields_the_primes :
  produced primes 1 = [2] /\
  (forall k,
     let c := 2 * Z.of_nat (S k) + 1 in
     exhausted primes (S k) = false /\
     StronglySorted Z.lt (produced primes (S k)) /\
     (forall p, In p (produced primes (S k)) <->
                Z.prime p /\ p <= 2 * Z.of_nat (S k)) /\
     produced primes (S (S k)) =
     produced primes (S k) ++
     (if trial (produced primes (S k)) c then [c] else []) /\
     (trial (produced primes (S k)) c = true <->
      forall p, In p (produced primes (S k)) -> p * p <= c -> c mod p <> 0)) /\
  (forall n, exists k, (n <= length (produced primes k))%nat) /\
  produced (take primes 6) 9 = [2; 3; 5; 7; 11; 13] /\
  exhausted (take primes 6) 9 = true /\
  option_map fst (collect 9 (take primes 6)) = Some (Returned []).
Proof.
  split; [reflexivity|].
  split.
  { intros k c.
    destruct (primes_run k) as [Hh [He [_ [_ Hp]]]].
    unfold exhausted, produced.
    change (_iter primes) with primes_gen.
    change (icur primes_gen) with PrimesNew.
    rewrite <- He in Hp.
    split; [exact Hh|].
    split; [exact (proj1 Hp)|].
    split; [exact (proj2 Hp)|].
    split; [apply primes_next_turn|].
    apply trial_spec; [exact (proj1 Hp)|].
    exact (primes_upto_positive _ _ Hp). }
  split; [exact primes_unbounded|].
  split; [vm_compute; reflexivity|].
  split; vm_compute; reflexivity.
Qed.

Lemma primes_yields_the_primes_witness : Z.prime 13 /\ 13 <= 2 * Z.of_nat 7.
Proof.
  apply (proj1 (proj2 (proj2 (proj1 (proj2 primes_yields_the_primes) 6%nat))) 13).
  vm_compute; tauto.
Defined.

(** C10. Draining [s.take(n)], that is pulling from it until it stops,
    moves the producer shared with [s] on by [n + 1] positions when it holds
    more than [n] elements: the generator hands out the first [n] and
    stops, and the producer is left where [s] stands right after its element
    of index [n] has been pulled, so whatever is pulled from it next starts
    at index [n + 1]: the next [next(s)] returns the element of index
    [n + 1]. *)
Theorem take_drains_one_more {T : Type} (s : Iter T) (n k : nat) :
  (n < length (produced s k))%nat ->
  exists k' st,
    (k' <= k)%nat /\
    run (_iter (take s (Z.of_nat n))) k (icur (_iter (take s (Z.of_nat n)))) =
    (firstn n (produced s k), true, st) /\
    take_source s (Z.of_nat n) st = state_after (_iter s) k' (icur (_iter s)) /\
    exhausted s k' = false /\
    produced s k' = firstn (n + 1) (produced s k) /\
    (forall j,
       elems (_iter s) j (take_source s (Z.of_nat n) st) =
       skipn (n + 1) (produced s (k' + j))) /\
    (forall j y,
       nth_error (produced s (k' + j)) (n + 1) = Some y ->
       exists w',
         __next__ j (moved s (take_source s (Z.of_nat n) st)) = Some (Some y, w')).
Proof.
  intro Hlt.
  destruct (take_run (_iter s) (Z.of_nat n) k 0 (icur (_iter s)))
    as [[_ [k' [Hk [Hh [He Hr]]]]]|[Hle _]].
  2:{ rewrite Z.sub_0_r, Nat2Z.id in Hle. unfold produced in Hlt. lia. }
  rewrite Z.sub_0_r, Nat2Z.id in He, Hr.
  exists k'.
  eexists.
  split; [exact Hk|].
  split.
  { change (run (_iter (take s (Z.of_nat n))) k (icur (_iter (take s (Z.of_nat n)))))
      with (run (gen_for (py_enumerate (_iter s) 0) (take_body (Z.of_nat n))) k
              (true, (0, icur (_iter s)))).
    rewrite Hr. reflexivity. }
  split; [reflexivity|].
  split; [exact Hh|].
  replace (n + 1)%nat with (S n) by lia.
  split; [exact He|].
  assert (forall j,
            elems (_iter s) j (state_after (_iter s) k' (icur (_iter s))) =
            skipn (S n) (produced s (k' + j))) as Hnext.
  { intro j. unfold produced. rewrite elems_add, Hh, He.
    assert (length (firstn (S n) (elems (_iter s) k (icur (_iter s)))) = S n) as HL.
    { rewrite length_firstn. unfold produced in Hlt. lia. }
    rewrite skipn_app, HL, Nat.sub_diag, skipn_O.
    rewrite skipn_all2 by lia. reflexivity. }
  split; [exact Hnext|].
  intros j y Hy.
  destruct (skipn_head _ _ _ Hy) as [t Ht].
  rewrite <- Hnext in Ht.
  destruct (py_next_head (_iter s) j _ y t Ht) as [s' Hs'].
  unfold __next__, take_source; cbn [snd].
  change (py_next (_iter (moved s (state_after (_iter s) k' (icur (_iter s))))) j
            (icur (_iter (moved s (state_after (_iter s) k' (icur (_iter s)))))))
    with (py_next (_iter s) j (state_after (_iter s) k' (icur (_iter s)))).
  rewrite Hs'. eexists; reflexivity.
Qed.

Lemma take_drains_one_more_witness :
  exists k' st,
    (k' <= 5)%nat /\
    run (_iter (take (count 0 1) 2)) 5 (icur (_iter (take (count 0 1) 2))) =
    (firstn 2 (produced (count 0 1) 5), true, st) /\
    take_source (count 0 1) 2 st =
    state_after (_iter (count 0 1)) k' (icur (_iter (count 0 1))) /\
    exhausted (count 0 1) k' = false /\
    produced (count 0 1) k' = firstn (2 + 1) (produced (count 0 1) 5) /\
    (forall j,
       elems (_iter (count 0 1)) j (take_source (count 0 1) 2 st) =
       skipn (2 + 1) (produced (count 0 1) (k' + j))) /\
    (forall j y,
       nth_error (produced (count 0 1) (k' + j)) (2 + 1) = Some y ->
       exists w',
         __next__ j (moved (count 0 1) (take_source (count 0 1) 2 st)) =
         Some (Some y, w')).
Proof.
  apply (take_drains_one_more (count 0 1) 2 5).
  vm_compute. lia.
Defined.

(** * The rest of the module: lazy transformations *)

Section LazyFacts.
Context {T U : Type} (it : iterator T).

Lemma py_map_run (f : T -> U) (k : nat) : forall s : istate it,
  run (py_map f it) k s =
  (List.map f (elems it k s), halted it k s, state_after it k s).
Proof.
  induction k as [|k IH]; intro s;
    unfold elems, halted, state_after in *; simpl; [reflexivity|].
  destruct (inext it s) as [[| |x] s1]; simpl; [reflexivity|apply IH|].
  rewrite IH. destruct (run it k s1) as [[l h] r]; reflexivity.
Qed.

Lemma py_filter_run (p : T -> bool) (k : nat) : forall s : istate it,
  run (py_filter p it) k s =
  (List.filter p (elems it k s), halted it k s, state_after it k s).
Proof.
  induction k as [|k IH]; intro s;
    unfold elems, halted, state_after in *; simpl; [reflexivity|].
  destruct (inext it s) as [[| |x] s1]; simpl; [reflexivity|apply IH|].
  destruct (run it k s1) as [[l h] r] eqn:E; simpl.
  specialize (IH s1); rewrite E in IH; simpl in IH.
  destruct (p x); simpl; rewrite IH; reflexivity.
Qed.

Lemma filter_map_run (g : T -> option U) (k : nat) : forall s : istate it,
  run (gen_for it (fun item => match g item with
                               | Some result => Emit result
                               | None => Continue
                               end)) k (true, s) =
  (flat_map (fun x => match g x with Some y => [y] | None => [] end)
     (elems it k s),
   halted it k s,
   (negb (halted it k s), state_after it k s)).
Proof.
  induction k as [|k IH]; intro s;
    unfold elems, halted, state_after in *; simpl; [reflexivity|].
  destruct (inext it s) as [[| |x] s1]; simpl; [reflexivity|apply IH|].
  destruct (run it k s1) as [[l h] r] eqn:E; simpl.
  specialize (IH s1); rewrite E in IH; simpl in IH.
  destruct (g x); simpl; rewrite IH; reflexivity.
Qed.

Lemma py_enumerate_run (start : Z) (k : nat) : forall (i : Z) (s : istate it),
  run (py_enumerate it start) k (i, s) =
  (indexed i (elems it k s), halted it k s,
   (i + Z.of_nat (length (elems it k s)), state_after it k s)).
Proof.
  induction k as [|k IH]; intros i s;
    unfold elems, halted, state_after in *; simpl.
  - rewrite Z.add_0_r; reflexivity.
  - destruct (inext it s) as [[| |x] s1]; simpl.
    + rewrite Z.add_0_r; reflexivity.
    + apply IH.
    + rewrite IH. destruct (run it k s1) as [[l h] r]; cbn [fst snd length].
      replace (i + 1 + Z.of_nat (length l)) with (i + Z.of_nat (S (length l)))
        by lia.
      reflexivity.
Qed.
End LazyFacts.

(** X1. [w.map(f)] hands out the images under [f] of the elements of [w],
    in the same order and turn for turn, and stops when [w] does. *)
Theorem map_maps_elements {T U : Type} (w : Iter T) (f : T -> U) (k : nat) :
  produced (map w f) k = List.map f (produced w k) /\
  exhausted (map w f) k = exhausted w k.
Proof.
  unfold produced, exhausted, elems at 1, halted at 1.
  change (run (_iter (map w f)) k (icur (_iter (map w f))))
    with (run (py_map f (_iter w)) k (icur (_iter w))).
  rewrite py_map_run. split; reflexivity.
Qed.

(** X2. [w.filter(pred)] hands out the elements of [w] that [pred]
    accepts, in their order, and stops when [w] does. *)
Theorem filter_keeps_accepted {T : Type} (w : Iter T) (pred : T -> bool)
    (k : nat) :
  produced (filter w pred) k = List.filter pred (produced w k) /\
  exhausted (filter w pred) k = exhausted w k.
Proof.
  unfold produced, exhausted, elems at 1, halted at 1.
  change (run (_iter (filter w pred)) k (icur (_iter (filter w pred))))
    with (run (py_filter pred (_iter w)) k (icur (_iter w))).
  rewrite py_filter_run. split; reflexivity.
Qed.

(** X3. [w.filter_map(f)] hands out the results of [f] on the elements of
    [w], those that are not [None], in order, and stops when [w] does. *)
Theorem filter_map_keeps_results {T U : Type} (w : Iter T)
    (f : T -> option U) (k : nat) :
  produced (filter_map w f) k =
  flat_map (fun x => match f x with Some y => [y] | None => [] end)
    (produced w k) /\
  exhausted (filter_map w f) k = exhausted w k.
Proof.
  unfold produced, exhausted, elems at 1, halted at 1.
  change (run (_iter (filter_map w f)) k (icur (_iter (filter_map w f))))
    with (run (gen_for (_iter w)
                 (fun item => match f item with
                              | Some result => Emit result
                              | None => Continue
                              end)) k (true, icur (_iter w))).
  rewrite filter_map_run. split; reflexivity.
Qed.

(** X4. [w.enumerate(start)] pairs the elements of [w] with [start],
    [start + 1], ... in order, and stops when [w] does. *)
Theorem enumerate_counts_from_start {T : Type} (w : Iter T) (start : Z)
    (k : nat) :
  produced (enumerate w start) k = indexed start (produced w k) /\
  exhausted (enumerate w start) k = exhausted w k.
Proof.
  unfold produced, exhausted, elems at 1, halted at 1.
  change (run (_iter (enumerate w start)) k (icur (_iter (enumerate w start))))
    with (run (py_enumerate (_iter w) start) k (start, icur (_iter w))).
  rewrite py_enumerate_run. split; reflexivity.
Qed.

Section TakeWhileFacts.
Context {T : Type} (it : iterator T) (p : T -> bool).

(** Either the source has produced an element that [p] rejects: the
    generator has let through what came before, has pulled that element,
    dropped it and returned.  Or it has not, and the generator has followed
    the source turn by turn. *)
Lemma take_while_run (k : nat) : forall s : istate it,
  let l := elems it k s in
  ((length (prefix_while p l) < length l)%nat /\
   exists k', (k' <= k)%nat /\ halted it k' s = false /\
     elems it k' s = firstn (S (length (prefix_while p l))) l /\
     run (gen_for it (take_while_body p)) k (true, s) =
     (prefix_while p l, true, (false, state_after it k' s)))
  \/
  (prefix_while p l = l /\
   run (gen_for it (take_while_body p)) k (true, s) =
   (l, halted it k s, (negb (halted it k s), state_after it k s))).
Proof.
  set (g := gen_for it (take_while_body p)).
  induction k as [|k IH]; intro s; cbv zeta.
  - right; split; reflexivity.
  - unfold elems, halted, state_after in *; simpl.
    destruct (inext it s) as [[| |x] s1] eqn:E; simpl.
    + right; split; reflexivity.
    + destruct (IH s1) as [[Hlt [k' [Hk [Hh [He Hr]]]]]|[Hp Hr]].
      * left; split; [exact Hlt|].
        exists (S k'); simpl; rewrite E.
        repeat split; [lia|exact Hh|exact He|exact Hr].
      * right; split; [exact Hp|exact Hr].
    + unfold take_while_body.
      destruct (run it k s1) as [[l1 h1] r1] eqn:E1; cbn [fst snd].
      specialize (IH s1); rewrite E1 in IH; cbn [fst snd] in IH.
      cbn [prefix_while].
      destruct (p x); cbn [negb length].
      * destruct IH as [[Hlt [k' [Hk [Hh [He Hr]]]]]|[Hp Hr]].
        -- left; split; [lia|].
           exists (S k'); simpl; rewrite E.
           destruct (run it k' s1) as [[l' h'] r']; cbn [fst snd] in *.
           rewrite Hr.
           repeat split; [lia|exact Hh|].
           rewrite He; reflexivity.
        -- right; rewrite Hr, Hp; split; reflexivity.
      * left; split; [lia|].
        exists 1%nat; simpl; rewrite E; cbn [fst snd].
        repeat split; lia.
Qed.
End TakeWhileFacts.

(** X5. [w.take_while(pred)] is flagged bounded and hands out the longest
    prefix of [w] on which [pred] holds; it stops when [w] stops or when it
    has met the first element that [pred] rejects. *)
Theorem take_while_longest_prefix {T : Type} (w : Iter T) (pred : T -> bool)
    (k : nat) :
  _infinite (take_while w pred) = false /\
  produced (take_while w pred) k = prefix_while pred (produced w k) /\
  exhausted (take_while w pred) k =
  exhausted w k ||
  (length (prefix_while pred (produced w k)) <? length (produced w k))%nat.
Proof.
  split; [reflexivity|].
  unfold produced, exhausted, elems at 1, halted at 1.
  change (run (_iter (take_while w pred)) k (icur (_iter (take_while w pred))))
    with (run (gen_for (_iter w) (take_while_body pred)) k (true, icur (_iter w))).
  destruct (take_while_run (_iter w) pred k (icur (_iter w)))
    as [[Hlt [k' [_ [_ [_ Hr]]]]]|[Hp Hr]]; rewrite Hr; cbn [fst snd].
  - split; [reflexivity|].
    apply Nat.ltb_lt in Hlt; rewrite Hlt, orb_true_r; reflexivity.
  - rewrite Hp. split; [reflexivity|].
    rewrite Nat.ltb_irrefl, orb_false_r; reflexivity.
Qed.

(** X6. The element on which [take_while] stops is lost: when [w] has
    produced an element that [pred] rejects, the generator has pulled it
    from the producer it shares with [w], which is left right after that
    element. *)
Theorem take_while_loses_rejected {T : Type} (w : Iter T) (pred : T -> bool)
    (k : nat) :
  (length (prefix_while pred (produced w k)) < length (produced w k))%nat ->
  exists k', (k' <= k)%nat /\
    snd (state_after (_iter (take_while w pred)) k
           (icur (_iter (take_while w pred)))) =
    state_after (_iter w) k' (icur (_iter w)) /\
    produced w k' =
    firstn (S (length (prefix_while pred (produced w k)))) (produced w k).
Proof.
  intro Hlt.
  destruct (take_while_run (_iter w) pred k (icur (_iter w)))
    as [[_ [k' [Hk [_ [He Hr]]]]]|[Hp _]].
  - exists k'. split; [exact Hk|]. split; [|exact He].
    unfold state_after at 1.
    change (run (_iter (take_while w pred)) k (icur (_iter (take_while w pred))))
      with (run (gen_for (_iter w) (take_while_body pred)) k (true, icur (_iter w))).
    rewrite Hr. reflexivity.
  - unfold produced in Hlt. rewrite Hp in Hlt. lia.
Qed.

Lemma take_while_loses_rejected_witness :
  exists k', (k' <= 5)%nat /\
    snd (state_after (_iter (take_while (count 0 1) (fun x => x <? 2))) 5
           (icur (_iter (take_while (count 0 1) (fun x => x <? 2))))) =
    state_after (_iter (count 0 1)) k' (icur (_iter (count 0 1))) /\
    produced (count 0 1) k' =
    firstn (S (length (prefix_while (fun x => x <? 2) (produced (count 0 1) 5))))
      (produced (count 0 1) 5).
Proof.
  apply (take_while_loses_rejected (count 0 1) (fun x => x <? 2) 5).
  vm_compute. lia.
Defined.

(** X7. Two [take]s in a row are one: [w.take(n).take(m)] hands out what
    [w.take(min m n)] does. *)
Theorem take_of_take {T : Type} (w : Iter T) (n m k : nat) :
  produced (take (take w (Z.of_nat n)) (Z.of_nat m)) k =
  produced (take w (Z.of_nat (Nat.min m n))) k.
Proof.
  rewrite !take_produced. apply firstn_firstn.
Qed.

(** X8. [w.take(n)] with [n <= 0] hands out nothing, and still costs [w]
    its first element: the generator pulls it before it compares its index
    with [n]. *)
Theorem take_nothing_still_pulls {T : Type} (w : Iter T) (items : Z)
    (k : nat) :
  items <= 0 ->
  produced (take w items) k = [] /\
  (produced w k <> [] ->
   exhausted (take w items) k = true /\
   exists k', (k' <= k)%nat /\
     take_source w items
       (state_after (_iter (take w items)) k (icur (_iter (take w items)))) =
     state_after (_iter w) k' (icur (_iter w)) /\
     produced w k' = firstn 1 (produced w k)).
Proof.
  intro Hi.
  assert (Z.to_nat (items - 0) = 0%nat) as Hm by lia.
  unfold produced, exhausted, elems at 1, halted at 1, state_after at 1.
  change (run (_iter (take w items)) k (icur (_iter (take w items))))
    with (run (gen_for (py_enumerate (_iter w) 0) (take_body items)) k
            (true, (0, icur (_iter w)))).
  destruct (take_run (_iter w) items k 0 (icur (_iter w)))
    as [[Hlt [k' [Hk [_ [He Hr]]]]]|[Hle Hr]];
    rewrite Hm in *; rewrite Hr; cbn [fst snd].
  - split; [reflexivity|]. intros _. split; [reflexivity|].
    exists k'. split; [exact Hk|]. split; [reflexivity|exact He].
  - assert (elems (_iter w) k (icur (_iter w)) = []) as Hnil
      by (destruct (elems (_iter w) k (icur (_iter w))); [reflexivity|simpl in Hle; lia]).
    rewrite Hnil. split; [reflexivity|]. intro H; contradiction H; reflexivity.
Qed.

Lemma take_nothing_still_pulls_witness :
  produced (take (count 0 1) 0) 3 = [] /\
  (produced (count 0 1) 3 <> [] ->
   exhausted (take (count 0 1) 0) 3 = true /\
   exists k', (k' <= 3)%nat /\
     take_source (count 0 1) 0
       (state_after (_iter (take (count 0 1) 0)) 3
          (icur (_iter (take (count 0 1) 0)))) =
     state_after (_iter (count 0 1)) k' (icur (_iter (count 0 1))) /\
     produced (count 0 1) k' = firstn 1 (produced (count 0 1) 3)).
Proof.
  apply (take_nothing_still_pulls (count 0 1) 0 3). lia.
Defined.

(** * The rest of the module: indexing *)

Section GetitemFacts.
Context {T : Type} (it : iterator T).

(** The loop of [__getitem__] from the pair of index [i] on.  Either the
    source has produced the element wanted: the loop returns it and leaves
    the source where the pull of that element left it.  Or the index is
    behind or the source has not come that far: the loop goes on until the
    source stops, and then returns [None]. *)
Lemma getitem_loop_run (index : Z) (k : nat) : forall (i : Z) (s : istate it),
  let l := elems it k s in
  let m := Z.to_nat (index - i) in
  (i <= index /\ (m < length l)%nat /\
   exists k' x, (k' <= k)%nat /\ halted it k' s = false /\
     elems it k' s = firstn (S m) l /\
     nth_error l m = Some x /\
     getitem_loop (py_enumerate it 0) k (i, s) index =
     Some (Some x, (index + 1, state_after it k' s)))
  \/
  ((index < i \/ (length l <= m)%nat) /\
   getitem_loop (py_enumerate it 0) k (i, s) index =
   if halted it k s
   then Some (None, (i + Z.of_nat (length l), state_after it k s))
   else None).
Proof.
  induction k as [|k IH]; intros i s; cbv zeta.
  - right; split; [right; simpl; lia|reflexivity].
  - unfold elems, halted, state_after in *; simpl.
    destruct (inext it s) as [[| |x] s1] eqn:E; simpl.
    + right; split; [right; lia|]. rewrite Z.add_0_r; reflexivity.
    + destruct (IH i s1) as [[Hi [Hlt [k' [y [Hk [Hh [He [Hn Hr]]]]]]]]|[Hc Hr]].
      * left; split; [exact Hi|]. split; [exact Hlt|].
        exists (S k'), y; simpl; rewrite E.
        repeat split; [lia|exact Hh|exact He|exact Hn|exact Hr].
      * right; split; [exact Hc|exact Hr].
    + destruct (run it k s1) as [[l1 h1] r1] eqn:E1; cbn [fst snd length].
      destruct (i =? index) eqn:Ei.
      * apply Z.eqb_eq in Ei; subst i.
        left; split; [lia|].
        replace (index - index) with 0 by lia; cbn [Z.to_nat].
        split; [lia|].
        exists 1%nat, x; simpl; rewrite E; cbn [fst snd].
        repeat split; lia.
      * apply Z.eqb_neq in Ei.
        specialize (IH (i + 1) s1); rewrite E1 in IH; cbn [fst snd] in IH.
        destruct IH as [[Hi [Hlt [k' [y [Hk [Hh [He [Hn Hr]]]]]]]]|[Hc Hr]].
        -- assert (Z.to_nat (index - i) = S (Z.to_nat (index - (i + 1))))
             as Hm by lia.
           left; split; [lia|]. rewrite Hm. split; [lia|].
           exists (S k'), y; simpl; rewrite E.
           destruct (run it k' s1) as [[l' h'] r']; cbn [fst snd] in *.
           repeat split; [lia|exact Hh|rewrite He; reflexivity|exact Hn|exact Hr].
        -- right; split.
           ++ destruct Hc as [Hc|Hc]; [left; lia|].
              destruct (Z_lt_le_dec index i) as [Hlt|Hle]; [left; exact Hlt|].
              right. lia.
           ++ rewrite Hr. destruct h1; [|reflexivity].
              replace (i + 1 + Z.of_nat (length l1))
                with (i + Z.of_nat (S (length l1))) by lia.
              reflexivity.
Qed.
End GetitemFacts.

(** X9. Indexing scans and consumes: [w[index]], for an [index >= 0] that
    [w] reaches, is the element of that position counted from where [w]
    stands, and leaves [w] right after it; the elements before it are
    gone. *)
Theorem getitem_returns_element {T : Type} (w : Iter T) (index : Z)
    (k : nat) (x : T) :
  0 <= index ->
  nth_error (produced w k) (Z.to_nat index) = Some x ->
  exists k', (k' <= k)%nat /\
    __getitem__ k w index =
    Some (Some x, moved w (state_after (_iter w) k' (icur (_iter w)))) /\
    exhausted w k' = false /\
    produced w k' = firstn (S (Z.to_nat index)) (produced w k).
Proof.
  intros Hi Hx.
  assert (Z.to_nat index < length (produced w k))%nat as Hlt
    by (apply nth_error_Some; rewrite Hx; discriminate).
  unfold __getitem__; cbv zeta.
  change (getitem_loop (_iter (enumerate w 0)) k (icur (_iter (enumerate w 0))) index)
    with (getitem_loop (py_enumerate (_iter w) 0) k (0, icur (_iter w)) index).
  destruct (getitem_loop_run (_iter w) index k 0 (icur (_iter w)))
    as [[_ [_ [k' [y [Hk [Hh [He [Hn Hr]]]]]]]]|[[Hc|Hc] _]];
    rewrite ?Z.sub_0_r in *.
  - exists k'. split; [exact Hk|].
    unfold produced in Hx. rewrite Hx in Hn. injection Hn as <-.
    rewrite Hr. repeat split; [exact Hh|exact He].
  - lia.
  - unfold produced in Hlt. lia.
Qed.

Lemma getitem_returns_element_witness :
  exists k', (k' <= 6)%nat /\
    __getitem__ 6 (__init__ (py_range 0 10 1) None) 4 =
    Some (Some 4,
          moved (__init__ (py_range 0 10 1) None)
            (state_after (py_range 0 10 1) k' 0)) /\
    exhausted (__init__ (py_range 0 10 1) None) k' = false /\
    produced (__init__ (py_range 0 10 1) None) k' =
    firstn (S (Z.to_nat 4)) (produced (__init__ (py_range 0 10 1) None) 6).
Proof.
  apply (getitem_returns_element (__init__ (py_range 0 10 1) None) 4 6 4).
  - lia.
  - reflexivity.
Defined.

(** X10. An index that [w] does not have gives [None], never an error, at
    the price of the whole of [w]: for an index beyond the end, and for
    every negative index (no position counts from the end), the loop runs
    until [w] stops. *)
Theorem getitem_absent_is_none {T : Type} (w : Iter T) (index : Z) (k : nat) :
  exhausted w k = true ->
  index < 0 \/ Z.of_nat (length (produced w k)) <= index ->
  __getitem__ k w index =
  Some (None, moved w (state_after (_iter w) k (icur (_iter w)))).
Proof.
  intros Hx Hc.
  unfold __getitem__; cbv zeta.
  change (getitem_loop (_iter (enumerate w 0)) k (icur (_iter (enumerate w 0))) index)
    with (getitem_loop (py_enumerate (_iter w) 0) k (0, icur (_iter w)) index).
  destruct (getitem_loop_run (_iter w) index k 0 (icur (_iter w)))
    as [[Hi [Hlt _]]|[_ Hr]]; rewrite ?Z.sub_0_r in *.
  - unfold produced in Hc. lia.
  - rewrite Hr. unfold exhausted in Hx; rewrite Hx. reflexivity.
Qed.

Lemma getitem_absent_is_none_witness :
  __getitem__ 4 (__init__ (list_iterator [7; 8; 9]) None) (-1) =
  Some (None,
        moved (__init__ (list_iterator [7; 8; 9]) None)
          (state_after (list_iterator [7; 8; 9]) 4 [7; 8; 9])).
Proof.
  apply (getitem_absent_is_none (__init__ (list_iterator [7; 8; 9]) None) (-1) 4).
  - reflexivity.
  - left; lia.
Defined.

(** * The rest of the module: the finite-only methods on bounded wrappers *)

Lemma list_iterator_run {T : Type} (l0 l : list T) :
  run (list_iterator l0) (S (length l)) l = (l, true, []).
Proof.
  induction l as [|x l IH]; [reflexivity|].
  cbn [length]. change (run (list_iterator l0) (S (S (length l))) (x :: l))
    with (let '(l1, h, r) := run (list_iterator l0) (S (length l)) l in
          (x :: l1, h, r)).
  rewrite IH. reflexivity.
Qed.

(** X11. [collect] on a wrapper flagged bounded does not return the
    elements of the wrapper.  [list(self)] asks the wrapper for its length
    before it fills the list, [__len__] loops over the iterator to count,
    and the list is filled from the iterator as [__len__] has left it: for
    an iterator that raises [StopIteration] again once it has raised it, the
    list is empty and the wrapper is left spent.  [Iter(l).collect()] is
    [[]] for every list [l]. *)
Theorem collect_returns_nothing {T : Type} (w : Iter T) (k : nat) :
  (_infinite w = false ->
   exhausted w k = true ->
   fst (inext (_iter w) (state_after (_iter w) k (icur (_iter w)))) = Stop ->
   collect k w =
   Some (Returned [],
         moved w (snd (inext (_iter w)
                         (state_after (_iter w) k (icur (_iter w))))))) /\
  (forall l : list T,
     produced (__init__ (list_iterator l) None) (S (length l)) = l /\
     collect (S (length l)) (__init__ (list_iterator l) None) =
     Some (Returned [], __init__ (list_iterator []) None)).
Proof.
  split; [apply collect_stopped|].
  intro l.
  assert (run (list_iterator l) (S (length l)) l = (l, true, [])) as Hr
    by apply list_iterator_run.
  split.
  - unfold produced, elems; cbn [__init__ _iter].
    change (icur (list_iterator l)) with l. rewrite Hr. reflexivity.
  - rewrite (collect_stopped (__init__ (list_iterator l) None) (S (length l))
               eq_refl).
    + unfold state_after; cbn [__init__ _iter].
      change (icur (list_iterator l)) with l. rewrite Hr. reflexivity.
    + unfold exhausted, halted; cbn [__init__ _iter].
      change (icur (list_iterator l)) with l. rewrite Hr. reflexivity.
    + unfold state_after; cbn [__init__ _iter].
      change (icur (list_iterator l)) with l. rewrite Hr. reflexivity.
Qed.

Lemma collect_returns_nothing_witness :
  collect 4 (__init__ (py_range 0 3 1) None) =
  Some (Returned [],
        moved (__init__ (py_range 0 3 1) None)
          (snd (inext (py_range 0 3 1)
                  (state_after (py_range 0 3 1) 4 (icur (py_range 0 3 1)))))).
Proof.
  apply (proj1 (collect_returns_nothing (__init__ (py_range 0 3 1) None) 4));
    reflexivity.
Defined.

Lemma fold_left_add (l : list Z) (a : Z) :
  fold_left Z.add l a = a + fold_right Z.add 0 l.
Proof.
  revert a; induction l as [|x l IH]; intro a; simpl; [lia|].
  rewrite IH. lia.
Qed.

(** X12. On a wrapper flagged bounded that stops, [sum] is the sum of its
    elements, [0] for none, and leaves it spent. *)
Theorem sum_adds_up (w : Iter Z) (k : nat) :
  _infinite w = false ->
  exhausted w k = true ->
  sum k w =
  Some (Returned (fold_right Z.add 0 (produced w k)),
        moved w (state_after (_iter w) k (icur (_iter w)))).
Proof.
  intros Hf Hx.
  unfold sum, requires_finite. rewrite Hf.
  rewrite py_list_run. unfold exhausted in Hx; rewrite Hx.
  rewrite fold_left_add. reflexivity.
Qed.

Lemma sum_adds_up_witness :
  sum 5 (__init__ (py_range 0 4 1) None) =
  Some (Returned (fold_right Z.add 0 (produced (__init__ (py_range 0 4 1) None) 5)),
        moved (__init__ (py_range 0 4 1) None)
          (state_after (py_range 0 4 1) 5 0)).
Proof.
  apply (sum_adds_up (__init__ (py_range 0 4 1) None) 5); reflexivity.
Defined.

Section SortedFacts.

Lemma insert_sorted_permutation {T : Type} (lt : T -> T -> bool)
    (reverse : bool) (x : T) (l : list T) :
  Permutation (x :: l) (insert_sorted lt reverse x l).
Proof.
  induction l as [|y r IH]; simpl; [reflexivity|].
  destruct (if reverse then lt x y else lt y x).
  - rewrite perm_swap. apply perm_skip. exact IH.
  - reflexivity.
Qed.

Lemma py_sorted_permutation {T : Type} (lt : T -> T -> bool)
    (reverse : bool) (l : list T) :
  Permutation l (py_sorted lt reverse l).
Proof.
  induction l as [|x l IH]; simpl; [reflexivity|].
  etransitivity; [apply perm_skip; exact IH|].
  apply insert_sorted_permutation.
Qed.

Lemma insert_sorted_head (reverse : bool) (x y : Z) (l : list Z) :
  (if reverse then x <= y else y <= x) ->
  HdRel (fun a b => if reverse then b <= a else a <= b) y l ->
  HdRel (fun a b => if reverse then b <= a else a <= b) y
    (insert_sorted Z.ltb reverse x l).
Proof.
  intros Hxy Hl. destruct l as [|z r]; simpl.
  - constructor. exact Hxy.
  - destruct (if reverse then x <? z else z <? x).
    + constructor. inversion Hl; assumption.
    + constructor. exact Hxy.
Qed.

Lemma insert_sorted_sorted (reverse : bool) (x : Z) (l : list Z) :
  Sorted (fun a b => if reverse then b <= a else a <= b) l ->
  Sorted (fun a b => if reverse then b <= a else a <= b)
    (insert_sorted Z.ltb reverse x l).
Proof.
  induction l as [|y r IH]; intro Hs; simpl.
  - constructor; constructor.
  - apply Sorted_inv in Hs; destruct Hs as [Hs Hh].
    destruct (if reverse then x <? y else y <? x) eqn:E.
    + constructor; [apply IH; exact Hs|].
      apply insert_sorted_head; [|exact Hh].
      destruct reverse; apply Z.ltb_lt in E; lia.
    + constructor; [constructor; assumption|].
      constructor. destruct reverse; apply Z.ltb_ge in E; lia.
Qed.

Lemma py_sorted_sorted (reverse : bool) (l : list Z) :
  Sorted (fun a b => if reverse then b <= a else a <= b)
    (py_sorted Z.ltb reverse l).
Proof.
  induction l as [|x l IH]; simpl; [constructor|].
  apply insert_sorted_sorted; exact IH.
Qed.
End SortedFacts.

(** X13. [sort] returns a new wrapper, flagged bounded, over the sorted
    list of what [list(self)] gives, which is what [collect] returns:
    ascending, descending with [reverse].  That list is filled after
    [__len__] has looped over the iterator, so for an iterator that raises
    [StopIteration] again once it has raised it, [sort] returns a wrapper
    that holds nothing and leaves the wrapper sorted spent. *)
Theorem sort_sorts_what_is_left (w : Iter Z) (reverse : bool) (k : nat) :
  (forall l w',
     collect k w = Some (Returned l, w') ->
     exists l',
       sort Z.ltb k reverse w =
       Some (Returned (__init__ (list_iterator l') None), w') /\
       Permutation l l' /\
       Sorted (fun a b => if reverse then b <= a else a <= b) l') /\
  (_infinite w = false ->
   exhausted w k = true ->
   fst (inext (_iter w) (state_after (_iter w) k (icur (_iter w)))) = Stop ->
   sort Z.ltb k reverse w =
   Some (Returned (__init__ (list_iterator []) None),
         moved w (snd (inext (_iter w)
                         (state_after (_iter w) k (icur (_iter w))))))).
Proof.
  split.
  - intros l w' H.
    exists (py_sorted Z.ltb reverse l).
    split; [|split; [apply py_sorted_permutation|apply py_sorted_sorted]].
    unfold collect, sort, requires_finite in *.
    destruct (_infinite w); [discriminate H|].
    rewrite H. reflexivity.
  - intros Hf Hx Hs.
    unfold sort, requires_finite; rewrite Hf.
    rewrite (list_self_stopped w k Hf Hx Hs). reflexivity.
Qed.

Lemma sort_sorts_what_is_left_witness :
  (exists l',
     sort Z.ltb 4 true (__init__ (list_iterator [2; 3; 1]) None) =
     Some (Returned (__init__ (list_iterator l') None),
           __init__ (list_iterator []) None) /\
     Permutation [] l' /\
     Sorted (fun a b => if true then b <= a else a <= b) l') /\
  sort Z.ltb 4 true (__init__ (list_iterator [2; 3; 1]) None) =
  Some (Returned (__init__ (list_iterator []) None),
        moved (__init__ (list_iterator [2; 3; 1]) None)
          (snd (inext (list_iterator [2; 3; 1])
                  (state_after (list_iterator [2; 3; 1]) 4
                     (icur (list_iterator [2; 3; 1])))))).
Proof.
  split.
  - apply (proj1 (sort_sorts_what_is_left
                    (__init__ (list_iterator [2; 3; 1]) None) true 4)
             [] (__init__ (list_iterator []) None)).
    reflexivity.
  - apply (proj2 (sort_sorts_what_is_left
                    (__init__ (list_iterator [2; 3; 1]) None) true 4));
      reflexivity.
Defined.

(** X14. [repeat(v, times)] with a number of times that is not zero and
    fits in a [ssize_t] is flagged bounded, hands out [v] that many times,
    one a turn, and stops; a negative number of times counts as none.  A
    number of times that does not fit raises [OverflowError]. *)
Theorem repeat_given_times {T : Type} (v : T) (times : Z) :
  times <> 0 ->
  (PY_SSIZE_T_MIN <= times <= PY_SSIZE_T_MAX ->
   exists w,
     repeat v (Some times) = Returned w /\
     _infinite w = false /\
     forall k,
       produced w k = List.repeat v (Nat.min k (Z.to_nat times)) /\
       exhausted w k = (Z.to_nat times <? k)%nat) /\
  (times < PY_SSIZE_T_MIN \/ PY_SSIZE_T_MAX < times ->
   repeat v (Some times) = Raised OverflowError).
Proof.
  intro Hne.
  assert (truthy (Some times) = true) as Ht
    by (unfold truthy; apply negb_true_iff, Z.eqb_neq; exact Hne).
  split.
  - intro Hfit.
    exists (__init__ (repeat_object v (Some times)) None).
    unfold repeat; rewrite Ht, (itertools_repeat_fits v times Hfit).
    split; [reflexivity|]. split; [reflexivity|].
    intro k.
    unfold produced, exhausted, elems, halted; cbn [__init__ _iter].
    change (icur (repeat_object v (Some times))) with (Some times).
    destruct (Z_lt_le_dec 0 times) as [Hpos|Hneg].
    + remember (Z.to_nat times) as n eqn:Hn.
      assert (times = Z.of_nat n) as E by lia.
      clear Hn Hfit. subst times.
      destruct (Nat.ltb_spec n k) as [Hlt|Hle].
      * rewrite repeat_times_run by exact Hlt.
        rewrite Nat.min_r by lia. split; reflexivity.
      * rewrite repeat_short_run by exact Hle.
        rewrite Nat.min_l by lia. split; reflexivity.
    + replace (Z.to_nat times) with 0%nat by lia.
      rewrite Nat.min_0_r.
      destruct k as [|k]; [split; reflexivity|].
      cbn [run repeat_object inext].
      replace (0 <? times) with false by (symmetry; apply Z.ltb_ge; lia).
      split; reflexivity.
  - intro Hout.
    unfold repeat; rewrite Ht, (itertools_repeat_overflows v times Hout).
    reflexivity.
Qed.

Lemma repeat_given_times_witness :
  (exists w,
     repeat 7 (Some 3) = Returned w /\
     _infinite w = false /\
     forall k,
       produced w k = List.repeat 7 (Nat.min k (Z.to_nat 3)) /\
       exhausted w k = (Z.to_nat 3 <? k)%nat) /\
  repeat 7 (Some (2 ^ 63)) = Raised OverflowError.
Proof.
  split.
  - apply (proj1 (repeat_given_times 7 3 ltac:(lia))).
    vm_compute. split; discriminate.
  - apply (proj2 (repeat_given_times 7 (2 ^ 63) ltac:(lia))).
    right. vm_compute. reflexivity.
Defined.

(** * The rest of the module: the sequences *)

Lemma itertools_count_run (start step : Z) (k : nat) : forall s : Z,
  run (itertools_count start step) k s =
  (List.map (fun i => s + Z.of_nat i * step) (seq 0 k), false,
   s + Z.of_nat k * step).
Proof.
  induction k as [|k IH]; intro s.
  - simpl. rewrite Z.add_0_r. reflexivity.
  - cbn [run itertools_count inext]. 
    change (run {| istate := Z; icur := start;
                   inext := fun n => (Yield n, n + step) |} k (s + step))
      with (run (itertools_count start step) k (s + step)).
    rewrite IH. cbn [seq List.map].
    rewrite <- seq_shift, map_map.
    f_equal; [f_equal|lia].
    f_equal; [lia|].
    apply map_ext. intro i. lia.
Qed.

(** X15. [count(start, step)] is the arithmetic progression [start],
    [start + step], [start + 2 step], ...: flagged unbounded, and it never
    stops, also with a step of zero or below. *)
Theorem count_is_progression (start step : Z) (k : nat) :
  _infinite (count start step) = true /\
  produced (count start step) k =
  List.map (fun i => start + Z.of_nat i * step) (seq 0 k) /\
  exhausted (count start step) k = false.
Proof.
  split; [reflexivity|].
  unfold produced, exhausted, elems, halted.
  change (run (_iter (count start step)) k (icur (_iter (count start step))))
    with (run (itertools_count start step) k start).
  rewrite itertools_count_run. split; reflexivity.
Qed.

(** X16. [square(start)] is flagged unbounded and hands out the squares
    of [start], [start + 1], [start + 2], ... without end. *)
Theorem square_is_squares (start : Z) (k : nat) :
  _infinite (square start) = true /\
  produced (square start) k =
  List.map (fun i => (start + Z.of_nat i) ^ 2) (seq 0 k) /\
  exhausted (square start) k = false.
Proof.
  split; [reflexivity|].
  unfold produced, exhausted, elems, halted.
  change (run (_iter (square start)) k (icur (_iter (square start))))
    with (run (py_map (fun x => x ^ 2) (itertools_count start 1)) k start).
  rewrite py_map_run.
  unfold elems, halted. rewrite itertools_count_run. cbn [fst snd].
  rewrite map_map. split; [|reflexivity].
  apply map_ext. intro i. f_equal. lia.
Qed.

Lemma fib_from_recurrence (n : nat) : forall a b : Z,
  fib_from a b (S (S n)) = fib_from a b n + fib_from a b (S n).
Proof.
  induction n as [|n IH]; intros a b; [reflexivity|].
  change (fib_from a b (S (S (S n)))) with (fib_from b (a + b) (S (S n))).
  rewrite IH. reflexivity.
Qed.

Lemma fibonacci_gen_run (a0 b0 : Z) (k : nat) : forall a b : Z,
  run (fibonacci_gen a0 b0) k (true, a, b) =
  (List.map (fib_from b (a + b)) (seq 0 k), false,
   (true, fib_from a b k, fib_from b (a + b) k)).
Proof.
  induction k as [|k IH]; intros a b; [reflexivity|].
  cbn [run fibonacci_gen inext].
  change (run {| istate := bool * Z * Z; icur := (false, a0, b0);
                 inext := inext (fibonacci_gen a0 b0) |} k (true, b, a + b))
    with (run (fibonacci_gen a0 b0) k (true, b, a + b)).
  rewrite IH. cbn [seq List.map].
  rewrite <- seq_shift, map_map. reflexivity.
Qed.

(** X17. [fibonacci(a, b)] is flagged unbounded and hands out, without
    end, the sequence that starts with [a] and [b] and in which every
    later element is the sum of the two before it. *)
Theorem fibonacci_is_recurrence (a b : Z) (k : nat) :
  _infinite (fibonacci a b) = true /\
  produced (fibonacci a b) k = List.map (fib_from a b) (seq 0 k) /\
  exhausted (fibonacci a b) k = false /\
  fib_from a b 0 = a /\
  fib_from a b 1 = b /\
  (forall n, fib_from a b (S (S n)) = fib_from a b n + fib_from a b (S n)).
Proof.
  split; [reflexivity|].
  assert (run (fibonacci_gen a b) k (false, a, b) =
          (List.map (fib_from a b) (seq 0 k), false,
           snd (run (fibonacci_gen a b) k (false, a, b)))) as Hr.
  { destruct k as [|k]; [reflexivity|].
    cbn [run fibonacci_gen inext].
    change (run {| istate := bool * Z * Z; icur := (false, a, b);
                   inext := inext (fibonacci_gen a b) |} k (true, a, b))
      with (run (fibonacci_gen a b) k (true, a, b)).
    rewrite fibonacci_gen_run. cbn [seq List.map fst snd].
    rewrite <- seq_shift, map_map. reflexivity. }
  unfold produced, exhausted, elems, halted.
  change (run (_iter (fibonacci a b)) k (icur (_iter (fibonacci a b))))
    with (run (fibonacci_gen a b) k (false, a, b)).
  rewrite Hr. cbn [fst snd].
  repeat split. intro n; apply fib_from_recurrence.
Qed.

Lemma triangle_numbers_gen_run (k : nat) : forall n total : Z,
  2 * total = n * (n + 1) ->
  elems triangle_numbers_gen k (Some (n, total)) =
  List.map (fun i => (n + Z.of_nat i + 1) * (n + Z.of_nat i + 2) / 2) (seq 0 k) /\
  halted triangle_numbers_gen k (Some (n, total)) = false.
Proof.
  induction k as [|k IH]; intros n total H; [split; reflexivity|].
  destruct (IH (n + 1) (total + (n + 1))) as [He Hh]; [lia|].
  destruct (turn_yield triangle_numbers_gen k (Some (n, total))
              (Some (n + 1, total + (n + 1))) (total + (n + 1)) eq_refl)
    as [He' Hh'].
  rewrite He', Hh', He. split; [|exact Hh].
  cbn [seq List.map]. rewrite <- seq_shift, map_map.
  f_equal.
  - replace ((n + Z.of_nat 0 + 1) * (n + Z.of_nat 0 + 2))
      with ((total + (n + 1)) * 2) by lia.
    symmetry; apply Z.div_mul; lia.
  - apply map_ext. intro i.
    replace (n + 1 + Z.of_nat i + 1) with (n + Z.of_nat (S i) + 1) by lia.
    replace (n + 1 + Z.of_nat i + 2) with (n + Z.of_nat (S i) + 2) by lia.
    reflexivity.
Qed.

(** X18. [triangle_numbers()] is flagged unbounded and hands out, without
    end, the triangle numbers [1], [3], [6], [10], ...: its element of
    index [i] is [(i + 1) (i + 2) / 2], the sum of [1] to [i + 1]. *)
Theorem triangle_numbers_closed_form (k : nat) :
  _infinite triangle_numbers = true /\
  produced triangle_numbers k =
  List.map (fun i => (Z.of_nat i + 1) * (Z.of_nat i + 2) / 2) (seq 0 k) /\
  exhausted triangle_numbers k = false.
Proof.
  split; [reflexivity|].
  unfold produced, exhausted.
  change (_iter triangle_numbers) with triangle_numbers_gen.
  change (icur triangle_numbers_gen) with (@None (Z * Z)).
  destruct k as [|k]; [split; reflexivity|].
  destruct (triangle_numbers_gen_run k 1 1 eq_refl) as [He Hh].
  destruct (turn_yield triangle_numbers_gen k None (Some (1, 1)) 1 eq_refl)
    as [He' Hh'].
  rewrite He', Hh', He. split; [|exact Hh].
  cbn [seq List.map]. rewrite <- seq_shift, map_map.
  f_equal. apply map_ext. intro i.
  replace (1 + Z.of_nat i + 1) with (Z.of_nat (S i) + 1) by lia.
  replace (1 + Z.of_nat i + 2) with (Z.of_nat (S i) + 2) by lia.
  reflexivity.
Qed.

Section TurnFacts.
Context {T : Type} (it : iterator T).

Lemma run_yield (k : nat) (s s' : istate it) (x : T) :
  inext it s = (Yield x, s') ->
  run it (S k) s = (x :: elems it k s', halted it k s', state_after it k s').
Proof.
  intro E; unfold elems, halted, state_after; simpl; rewrite E.
  destruct (run it k s') as [[l h] r]; reflexivity.
Qed.

Lemma run_stop (k : nat) (s s' : istate it) :
  inext it s = (Stop, s') -> run it (S k) s = ([], true, s').
Proof. intro E; simpl; rewrite E; reflexivity. Qed.

Lemma run_then (j k : nat) (s s1 s2 : istate it) (l1 l2 : list T) (h2 : bool) :
  run it j s = (l1, false, s1) ->
  run it k s1 = (l2, h2, s2) ->
  run it (j + k) s = (l1 ++ l2, h2, s2).
Proof.
  intros H1 H2. rewrite run_add.
  unfold halted, elems, state_after. rewrite H1; cbn [fst snd].
  rewrite H2. reflexivity.
Qed.

(** What a [direct] iterator that keeps going has produced in [k] turns
    is the first [k] of what it has produced later. *)
Lemma elems_prefix (D : direct it) (k j : nat) (s : istate it) :
  halted it (k + j) s = false ->
  elems it k s = firstn k (elems it (k + j) s).
Proof.
  intro H. rewrite halted_add in H. apply orb_false_iff in H.
  destruct H as [Hk _].
  rewrite elems_add, Hk.
  pose proof (direct_elems_length it D k s Hk) as HL.
  rewrite firstn_app, HL, Nat.sub_diag, firstn_O, app_nil_r.
  symmetry; apply firstn_all2; lia.
Qed.
End TurnFacts.

Section RangeFacts.
Context (start stop step : Z).

Lemma py_range_up (n : nat) : forall s : Z,
  0 < step ->
  stop <= s + Z.of_nat n * step ->
  (forall i, (i < n)%nat -> s + Z.of_nat i * step < stop) ->
  run (py_range start stop step) (S n) s =
  (List.map (fun i => s + Z.of_nat i * step) (seq 0 n), true,
   s + Z.of_nat n * step).
Proof.
  induction n as [|n IH]; intros s Hstep Hend Hin.
  - rewrite (run_stop (py_range start stop step) 0 s s).
    + simpl. rewrite Z.add_0_r. reflexivity.
    + simpl.
      replace (s <? stop) with false by (symmetry; apply Z.ltb_ge; lia).
      replace (step <? 0) with false by (symmetry; apply Z.ltb_ge; lia).
      rewrite andb_false_r. reflexivity.
  - rewrite (run_yield (py_range start stop step) (S n) s (s + step) s).
    + unfold elems, halted, state_after. rewrite IH.
      * cbn [fst snd seq List.map]. rewrite <- seq_shift, map_map.
        f_equal; [f_equal|lia].
        f_equal; [lia|]. apply map_ext; intro i; lia.
      * exact Hstep.
      * lia.
      * intros i Hi. specialize (Hin (S i) ltac:(lia)). lia.
    + simpl. specialize (Hin 0%nat ltac:(lia)).
      replace (0 <? step) with true by (symmetry; apply Z.ltb_lt; lia).
      replace (s <? stop) with true by (symmetry; apply Z.ltb_lt; lia).
      reflexivity.
Qed.

Lemma py_range_down (n : nat) : forall s : Z,
  step < 0 ->
  s + Z.of_nat n * step <= stop ->
  (forall i, (i < n)%nat -> stop < s + Z.of_nat i * step) ->
  run (py_range start stop step) (S n) s =
  (List.map (fun i => s + Z.of_nat i * step) (seq 0 n), true,
   s + Z.of_nat n * step).
Proof.
  induction n as [|n IH]; intros s Hstep Hend Hin.
  - rewrite (run_stop (py_range start stop step) 0 s s).
    + simpl. rewrite Z.add_0_r. reflexivity.
    + simpl.
      replace (0 <? step) with false by (symmetry; apply Z.ltb_ge; lia).
      replace (stop <? s) with false by (symmetry; apply Z.ltb_ge; lia).
      rewrite andb_false_r. reflexivity.
  - rewrite (run_yield (py_range start stop step) (S n) s (s + step) s).
    + unfold elems, halted, state_after. rewrite IH.
      * cbn [fst snd seq List.map]. rewrite <- seq_shift, map_map.
        f_equal; [f_equal|lia].
        f_equal; [lia|]. apply map_ext; intro i; lia.
      * exact Hstep.
      * lia.
      * intros i Hi. specialize (Hin (S i) ltac:(lia)). lia.
    + simpl. specialize (Hin 0%nat ltac:(lia)).
      replace (0 <? step) with false by (symmetry; apply Z.ltb_ge; lia).
      replace (step <? 0) with true by (symmetry; apply Z.ltb_lt; lia).
      replace (stop <? s) with true by (symmetry; apply Z.ltb_lt; lia).
      reflexivity.
Qed.
End RangeFacts.

(** X19. [range] follows Python's: no argument, more than three, or a step
    of zero is an error; one argument is [range(0, stop, 1)] and two are
    [range(start, stop, 1)]; and [range(start, stop, step)] is a bounded
    wrapper that hands out [start], [start + step], ... as long as they are
    on the near side of [stop], which itself is left out, and then stops:
    below it for a step above zero, above it for a step below zero. *)
Theorem range_is_progression (start stop step : Z) (n : nat) :
  range [] = None /\
  range [start; stop; 0] = None /\
  (forall a b c d rest, range (a :: b :: c :: d :: rest) = None) /\
  range [stop] = range [0; stop; 1] /\
  range [start; stop] = range [start; stop; 1] /\
  (step <> 0 ->
   range [start; stop; step] = Some (__init__ (py_range start stop step) None)) /\
  (0 < step ->
   stop <= start + Z.of_nat n * step ->
   (forall i, (i < n)%nat -> start + Z.of_nat i * step < stop) ->
   produced (__init__ (py_range start stop step) None) (S n) =
   List.map (fun i => start + Z.of_nat i * step) (seq 0 n) /\
   exhausted (__init__ (py_range start stop step) None) (S n) = true) /\
  (step < 0 ->
   start + Z.of_nat n * step <= stop ->
   (forall i, (i < n)%nat -> stop < start + Z.of_nat i * step) ->
   produced (__init__ (py_range start stop step) None) (S n) =
   List.map (fun i => start + Z.of_nat i * step) (seq 0 n) /\
   exhausted (__init__ (py_range start stop step) None) (S n) = true).
Proof.
  split; [reflexivity|]. split; [reflexivity|]. split; [reflexivity|].
  split; [reflexivity|]. split; [reflexivity|].
  split.
  { intro H. unfold range.
    replace (step =? 0) with false by (symmetry; apply Z.eqb_neq; exact H).
    reflexivity. }
  split.
  - intros H1 H2 H3.
    unfold produced, exhausted, elems, halted; cbn [__init__ _iter].
    change (icur (py_range start stop step)) with start.
    rewrite py_range_up by assumption. split; reflexivity.
  - intros H1 H2 H3.
    unfold produced, exhausted, elems, halted; cbn [__init__ _iter].
    change (icur (py_range start stop step)) with start.
    rewrite py_range_down by assumption. split; reflexivity.
Qed.

Lemma range_is_progression_witness :
  range [2; 11; 3] = Some (__init__ (py_range 2 11 3) None) /\
  (produced (__init__ (py_range 2 11 3) None) (S 3) =
   List.map (fun i => 2 + Z.of_nat i * 3) (seq 0 3) /\
   exhausted (__init__ (py_range 2 11 3) None) (S 3) = true) /\
  (produced (__init__ (py_range 5 0 (-2)) None) (S 3) =
   List.map (fun i => 5 + Z.of_nat i * (-2)) (seq 0 3) /\
   exhausted (__init__ (py_range 5 0 (-2)) None) (S 3) = true).
Proof.
  split; [|split].
  - apply (proj1 (proj2 (proj2 (proj2 (proj2 (proj2
             (range_is_progression 2 11 3 3))))))). lia.
  - apply (proj1 (proj2 (proj2 (proj2 (proj2 (proj2 (proj2
             (range_is_progression 2 11 3 3)))))))).
    + lia.
    + lia.
    + intros i Hi. lia.
  - apply (proj2 (proj2 (proj2 (proj2 (proj2 (proj2 (proj2
             (range_is_progression 5 0 (-2) 3)))))))).
    + lia.
    + lia.
    + intros i Hi. lia.
Defined.

Section CycleFacts.
Context {T : Type} (l0 : list T).

Local Abbreviation C := (itertools_cycle (list_iterator l0)).

Lemma cycle_list_direct : direct C.
Proof.
  intros [[s saved] round]; simpl.
  destruct round as [[|x r]|].
  - destruct saved; simpl; discriminate.
  - discriminate.
  - destruct s as [|x s]; simpl; [|discriminate].
    destruct saved; simpl; discriminate.
Qed.

(** The first pass hands out the list and saves it. *)
Lemma cycle_first_pass (rest : list T) : forall saved : list T,
  run C (length rest) (rest, saved, None) =
  (rest, false, ([], saved ++ rest, None)).
Proof.
  induction rest as [|x rest IH]; intro saved.
  - simpl. rewrite app_nil_r. reflexivity.
  - cbn [length].
    rewrite (run_yield C (length rest) (x :: rest, saved, None)
               (rest, saved ++ [x], None) x eq_refl).
    unfold elems, halted, state_after. rewrite IH; cbn [fst snd].
    rewrite <- app_assoc. reflexivity.
Qed.

(** What is left of a round is handed out. *)
Lemma cycle_round (r : list T) : forall s saved : list T,
  run C (length r) (s, saved, Some r) = (r, false, (s, saved, Some [])).
Proof.
  induction r as [|x r IH]; intros s saved; [reflexivity|].
  cbn [length].
  rewrite (run_yield C (length r) (s, saved, Some (x :: r))
             (s, saved, Some r) x eq_refl).
  unfold elems, halted, state_after. rewrite IH. reflexivity.
Qed.

(** After the first pass and after every round, a new round begins. *)
Lemma cycle_new_round (l : list T) (st : list T * list T * option (list T)) :
  l <> [] ->
  st = ([], l, None) \/ st = ([], l, Some []) ->
  run C (length l) st = (l, false, ([], l, Some [])).
Proof.
  intros Hl Hst. destruct l as [|x r]; [contradiction Hl; reflexivity|].
  cbn [length].
  assert (inext C st = (Yield x, ([], x :: r, Some r))) as E
    by (destruct Hst as [->| ->]; reflexivity).
  rewrite (run_yield C (length r) st _ x E).
  unfold elems, halted, state_after. rewrite cycle_round. reflexivity.
Qed.

Lemma cycle_rounds (l : list T) (n : nat) :
  l <> [] ->
  run C (n * length l) ([], l, Some []) =
  (rounds l n, false, ([], l, Some [])).
Proof.
  intro Hl. induction n as [|n IH]; [reflexivity|].
  cbn [Nat.mul].
  rewrite (run_then C (length l) (n * length l) _ _ _ _ _ _
             (cycle_new_round l _ Hl (or_intror eq_refl)) IH).
  reflexivity.
Qed.

Lemma cycle_list_run (n : nat) :
  l0 <> [] ->
  run C (length l0 + (length l0 + n * length l0)) (l0, [], None) =
  (l0 ++ l0 ++ rounds l0 n, false, ([], l0, Some [])).
Proof.
  intro Hl.
  apply (run_then C _ _ _ _ _ _ _ _ (cycle_first_pass l0 [])).
  apply (run_then C _ _ _ _ _ _ _ _
           (cycle_new_round l0 _ Hl (or_introl eq_refl))).
  apply cycle_rounds; exact Hl.
Qed.
End CycleFacts.

Lemma nth_error_rounds {T : Type} (l : list T) (n : nat) : forall i : nat,
  (i < n * length l)%nat ->
  nth_error (rounds l n) i = nth_error l (i mod length l).
Proof.
  induction n as [|n IH]; intros i Hi; [simpl in Hi; lia|].
  change (rounds l (S n)) with (l ++ rounds l n).
  destruct (Nat.lt_ge_cases i (length l)) as [Hlt|Hge].
  - rewrite nth_error_app1 by exact Hlt.
    rewrite Nat.mod_small by exact Hlt. reflexivity.
  - rewrite nth_error_app2 by exact Hge.
    rewrite IH by (simpl in Hi; lia).
    f_equal.
    replace i with ((i - length l) + 1 * length l)%nat at 2 by lia.
    rewrite Nat.Div0.mod_add. reflexivity.
Qed.

(** X20. [cycle] over a list that is not empty is flagged unbounded, never
    stops, and hands out the list over and over: its element of index [i]
    is the element of index [i mod len(l)] of the list. *)
Theorem cycle_repeats_list {T : Type} (l : list T) (k i : nat) :
  l <> [] ->
  (i < k)%nat ->
  _infinite (cycle (list_iterator l)) = true /\
  exhausted (cycle (list_iterator l)) k = false /\
  length (produced (cycle (list_iterator l)) k) = k /\
  nth_error (produced (cycle (list_iterator l)) k) i =
  nth_error l (i mod length l).
Proof.
  intros Hl Hi.
  split; [reflexivity|].
  assert (0 < length l)%nat as Hpos
    by (destruct l; [contradiction Hl; reflexivity|simpl; lia]).
  pose (K := (length l + (length l + k * length l))%nat).
  assert (K = k + (K - k))%nat as HK by (unfold K; nia).
  pose proof (cycle_list_run l k Hl) as Hrun. fold K in Hrun.
  assert (halted (itertools_cycle (list_iterator l)) (k + (K - k)) (l, [], None)
          = false) as Hh.
  { rewrite <- HK. unfold halted. rewrite Hrun. reflexivity. }
  pose proof (elems_prefix _ (cycle_list_direct l) k (K - k) (l, [], None) Hh)
    as Hpre.
  rewrite <- HK in Hpre. unfold elems at 2 in Hpre. rewrite Hrun in Hpre.
  cbn [fst] in Hpre.
  rewrite halted_add in Hh. apply orb_false_iff in Hh. destruct Hh as [Hk _].
  unfold exhausted, produced.
  change (_iter (cycle (list_iterator l))) with (itertools_cycle (list_iterator l)).
  change (icur (itertools_cycle (list_iterator l))) with (l, @nil T, @None (list T)).
  split; [exact Hk|].
  split; [apply direct_elems_length; [apply cycle_list_direct|exact Hk]|].
  rewrite Hpre.
  rewrite nth_error_firstn.
  replace (i <? k)%nat with true by (symmetry; apply Nat.ltb_lt; exact Hi).
  change (l ++ l ++ rounds l k) with (rounds l (S (S k))).
  apply nth_error_rounds. nia.
Qed.

Lemma cycle_repeats_list_witness :
  _infinite (cycle (list_iterator [1; 2; 3])) = true /\
  exhausted (cycle (list_iterator [1; 2; 3])) 8 = false /\
  length (produced (cycle (list_iterator [1; 2; 3])) 8) = 8%nat /\
  nth_error (produced (cycle (list_iterator [1; 2; 3])) 8) 7 =
  nth_error [1; 2; 3] (7 mod length [1; 2; 3]).
Proof.
  apply (cycle_repeats_list [1; 2; 3] 8 7).
  - discriminate.
  - lia.
Defined.

Lemma cycle_nothing_run {T : Type} (it : iterator T) (k : nat) :
  forall s : istate it,
    halted it k s = true ->
    elems it k s = [] ->
    run (itertools_cycle it) k (s, [], None) =
    ([], true, (state_after it k s, [], Some [])).
Proof.
  induction k as [|k IH]; intro s;
    unfold halted, elems, state_after in *; simpl; [discriminate|].
  destruct (inext it s) as [[| |x] s1]; simpl.
  - reflexivity.
  - apply IH.
  - destruct (run it k s1) as [[l h] r]; simpl. discriminate.
Qed.

(** X21. [cycle] over a source that stops without an element does not
    hang: it stops with it.  The wrapper is flagged unbounded all the same,
    so that [collect] refuses it although it holds nothing. *)
Theorem cycle_of_nothing_stops {T : Type} (it : iterator T) (k : nat) :
  halted it k (icur it) = true ->
  elems it k (icur it) = [] ->
  _infinite (cycle it) = true /\
  exhausted (cycle it) k = true /\
  produced (cycle it) k = [] /\
  collect k (cycle it) =
  Some (Raised (InfiniteIteratorError (default_message "collect")), cycle it).
Proof.
  intros Hh He.
  split; [reflexivity|].
  unfold exhausted, produced, halted at 1, elems at 1.
  change (run (_iter (cycle it)) k (icur (_iter (cycle it))))
    with (run (itertools_cycle it) k (icur it, [], None)).
  rewrite (cycle_nothing_run it k (icur it) Hh He).
  repeat split.
Qed.

Lemma cycle_of_nothing_stops_witness :
  _infinite (cycle (py_range 0 0 1)) = true /\
  exhausted (cycle (py_range 0 0 1)) 1 = true /\
  produced (cycle (py_range 0 0 1)) 1 = [] /\
  collect 1 (cycle (py_range 0 0 1)) =
  Some (Raised (InfiniteIteratorError (default_message "collect")),
        cycle (py_range 0 0 1)).
Proof.
  apply (cycle_of_nothing_stops (py_range 0 0 1) 1); reflexivity.
Defined.

(** * The rest of the module: the operators *)

(** X22. With a number on the right, [w + z], [w - z] and [w * z] hand out
    the elements of [w] with [z] added, subtracted, multiplied in, in order
    and turn for turn, and stop when [w] does. *)
Theorem arithmetic_with_scalar (w : Iter Z) (z : Z) (k : nat) :
  produced (__add__ w (Scalar z)) k = List.map (fun x => x + z) (produced w k) /\
  produced (__sub__ w (Scalar z)) k = List.map (fun x => x - z) (produced w k) /\
  produced (__mul__ w (Scalar z)) k = List.map (fun x => x * z) (produced w k) /\
  exhausted (__add__ w (Scalar z)) k = exhausted w k /\
  exhausted (__sub__ w (Scalar z)) k = exhausted w k /\
  exhausted (__mul__ w (Scalar z)) k = exhausted w k.
Proof.
  unfold produced, exhausted, elems, halted.
  change (run (_iter (__add__ w (Scalar z))) k (icur (_iter (__add__ w (Scalar z)))))
    with (run (py_map (fun x => x + z) (_iter w)) k (icur (_iter w))).
  change (run (_iter (__sub__ w (Scalar z))) k (icur (_iter (__sub__ w (Scalar z)))))
    with (run (py_map (fun x => x - z) (_iter w)) k (icur (_iter w))).
  change (run (_iter (__mul__ w (Scalar z))) k (icur (_iter (__mul__ w (Scalar z)))))
    with (run (py_map (fun x => x * z) (_iter w)) k (icur (_iter w))).
  rewrite !py_map_run. repeat split.
Qed.

Lemma zip_then_map (op : Z -> Z -> Z) (a b : Iter Z) (k : nat) :
  direct (_iter a) -> direct (_iter b) ->
  produced (map (zip a [b]) (fun pair => op (item pair 0) (item pair 1))) k =
  List.map (fun p => op (fst p) (snd p)) (combine (produced a k) (produced b k)) /\
  exhausted (map (zip a [b]) (fun pair => op (item pair 0) (item pair 1))) k =
  exhausted a k || exhausted b k.
Proof.
  intros Da Db.
  destruct (zip_pair_run (_iter a) (_iter b) Da Db k) as [He Hh].
  unfold produced, exhausted, elems at 1, halted at 1.
  change (run (_iter (map (zip a [b]) (fun pair => op (item pair 0) (item pair 1)))) k
            (icur (_iter (map (zip a [b]) (fun pair => op (item pair 0) (item pair 1))))))
    with (run (py_map (fun pair => op (item pair 0) (item pair 1))
                 (py_zip [_iter a; _iter b])) k
            (icur (py_zip [_iter a; _iter b]))).
  rewrite py_map_run; cbn [fst snd].
  rewrite He, Hh, map_map. split; reflexivity.
Qed.

(** X23. With a wrapper on the right, [a + b], [a - b] and [a * b] work
    position by position on the elements of [a] and [b] and stop with the
    first of the two that stops (operands that answer every pull at once).
    The result is flagged bounded whatever the operands are. *)
Theorem arithmetic_with_wrapper (a b : Iter Z) (k : nat) :
  direct (_iter a) -> direct (_iter b) ->
  _infinite (__add__ a (Wrapper b)) = false /\
  _infinite (__sub__ a (Wrapper b)) = false /\
  _infinite (__mul__ a (Wrapper b)) = false /\
  produced (__add__ a (Wrapper b)) k =
  List.map (fun p => fst p + snd p) (combine (produced a k) (produced b k)) /\
  produced (__sub__ a (Wrapper b)) k =
  List.map (fun p => fst p - snd p) (combine (produced a k) (produced b k)) /\
  produced (__mul__ a (Wrapper b)) k =
  List.map (fun p => fst p * snd p) (combine (produced a k) (produced b k)) /\
  exhausted (__add__ a (Wrapper b)) k = exhausted a k || exhausted b k /\
  exhausted (__sub__ a (Wrapper b)) k = exhausted a k || exhausted b k /\
  exhausted (__mul__ a (Wrapper b)) k = exhausted a k || exhausted b k.
Proof.
  intros Da Db.
  destruct (zip_then_map Z.add a b k Da Db) as [Ha Ha'].
  destruct (zip_then_map Z.sub a b k Da Db) as [Hs Hs'].
  destruct (zip_then_map Z.mul a b k Da Db) as [Hm Hm'].
  repeat split; assumption.
Qed.

Lemma arithmetic_with_wrapper_witness :
  _infinite (__add__ (__init__ (list_iterator [1; 2; 3]) None)
               (Wrapper (__init__ (list_iterator [10; 20; 30]) None))) = false /\
  _infinite (__sub__ (__init__ (list_iterator [1; 2; 3]) None)
               (Wrapper (__init__ (list_iterator [10; 20; 30]) None))) = false /\
  _infinite (__mul__ (__init__ (list_iterator [1; 2; 3]) None)
               (Wrapper (__init__ (list_iterator [10; 20; 30]) None))) = false /\
  produced (__add__ (__init__ (list_iterator [1; 2; 3]) None)
              (Wrapper (__init__ (list_iterator [10; 20; 30]) None))) 4 =
  List.map (fun p => fst p + snd p)
    (combine (produced (__init__ (list_iterator [1; 2; 3]) None) 4)
             (produced (__init__ (list_iterator [10; 20; 30]) None) 4)) /\
  produced (__sub__ (__init__ (list_iterator [1; 2; 3]) None)
              (Wrapper (__init__ (list_iterator [10; 20; 30]) None))) 4 =
  List.map (fun p => fst p - snd p)
    (combine (produced (__init__ (list_iterator [1; 2; 3]) None) 4)
             (produced (__init__ (list_iterator [10; 20; 30]) None) 4)) /\
  produced (__mul__ (__init__ (list_iterator [1; 2; 3]) None)
              (Wrapper (__init__ (list_iterator [10; 20; 30]) None))) 4 =
  List.map (fun p => fst p * snd p)
    (combine (produced (__init__ (list_iterator [1; 2; 3]) None) 4)
             (produced (__init__ (list_iterator [10; 20; 30]) None) 4)) /\
  exhausted (__add__ (__init__ (list_iterator [1; 2; 3]) None)
               (Wrapper (__init__ (list_iterator [10; 20; 30]) None))) 4 =
  exhausted (__init__ (list_iterator [1; 2; 3]) None) 4 ||
  exhausted (__init__ (list_iterator [10; 20; 30]) None) 4 /\
  exhausted (__sub__ (__init__ (list_iterator [1; 2; 3]) None)
               (Wrapper (__init__ (list_iterator [10; 20; 30]) None))) 4 =
  exhausted (__init__ (list_iterator [1; 2; 3]) None) 4 ||
  exhausted (__init__ (list_iterator [10; 20; 30]) None) 4 /\
  exhausted (__mul__ (__init__ (list_iterator [1; 2; 3]) None)
               (Wrapper (__init__ (list_iterator [10; 20; 30]) None))) 4 =
  exhausted (__init__ (list_iterator [1; 2; 3]) None) 4 ||
  exhausted (__init__ (list_iterator [10; 20; 30]) None) 4.
Proof.
  apply (arithmetic_with_wrapper (__init__ (list_iterator [1; 2; 3]) None)
           (__init__ (list_iterator [10; 20; 30]) None) 4);
    apply list_iterator_direct.
Defined.

(** * The rest of the module: [len] *)

(** X27. On a wrapper flagged bounded that stops, [len] answers the index
    of the last element, one less than the number of elements ([0] for
    none as for one), and leaves the wrapper spent. *)
Theorem len_is_one_short {T : Type} (w : Iter T) (k : nat) :
  _infinite w = false ->
  exhausted w k = true ->
  len k w =
  Some (Z.max 0 (Z.of_nat (length (produced w k)) - 1),
        moved w (state_after (_iter w) k (icur (_iter w)))).
Proof.
  intros Hf Hx. unfold len, __len__; rewrite Hf. cbv zeta.
  change (len_loop (_iter (enumerate w 0)) k (icur (_iter (enumerate w 0))) 0)
    with (len_loop (py_enumerate (_iter w) 0) k (0, icur (_iter w)) 0).
  rewrite len_loop_run.
  unfold exhausted in Hx; rewrite Hx. unfold produced. cbn [snd].
  destruct (elems (_iter w) k (icur (_iter w))) as [|x l]; cbn [length].
  - reflexivity.
  - do 2 f_equal. lia.
Qed.

Lemma len_is_one_short_witness :
  len 6 (__init__ (py_range 0 5 1) None) =
  Some (Z.max 0 (Z.of_nat (length (produced (__init__ (py_range 0 5 1) None) 6)) - 1),
        moved (__init__ (py_range 0 5 1) None) (state_after (py_range 0 5 1) 6 0)).
Proof.
  apply (len_is_one_short (__init__ (py_range 0 5 1) None) 6); reflexivity.
Defined.

(** * Generator.py and count.py *)

Lemma generator_next_wraps {T : Type} (self : generator.Generator T)
    (g : iterator T) (fuel : nat) :
  wraps self g ->
  generator.__next__ fuel self =
  match py_next g fuel (icur g) with
  | Some (r, s') =>
      Some (r, generator.MkGenerator (AnIterator (at_state g s'))
                 (Some (at_state g s')))
  | None => None
  end.
Proof.
  destruct self as [gen it]. unfold wraps; simpl.
  intros [-> [-> | ->]]; unfold generator.__next__; simpl;
    destruct (py_next g fuel (icur g)) as [[r s']|]; reflexivity.
Qed.

Lemma generator_nexts_wraps {T : Type} (fuel n : nat) :
  forall (self : generator.Generator T) (g : iterator T),
    wraps self g ->
    option_map fst (generator.nexts fuel n self) =
    option_map fst (py_nexts g fuel n (icur g)).
Proof.
  induction n as [|n IH]; intros self g Hw; [reflexivity|].
  cbn [generator.nexts py_nexts].
  rewrite (generator_next_wraps self g fuel Hw).
  destruct (py_next g fuel (icur g)) as [[[x|] s']|]; try reflexivity.
  assert (wraps (generator.MkGenerator (AnIterator (at_state g s'))
                   (Some (at_state g s'))) (at_state g s')) as Hw'
    by (split; [reflexivity|right; reflexivity]).
  specialize (IH _ _ Hw').
  change (py_nexts (at_state g s') fuel n (icur (at_state g s')))
    with (py_nexts g fuel n s') in IH.
  destruct (generator.nexts fuel n _) as [[l1 s1]|];
    destruct (py_nexts g fuel n s') as [[l2 s2]|];
    simpl in *; congruence.
Qed.

(** X24. A [Generator] made of an iterator object hands out, call of
    [next] after call, what that iterator hands out, and [__iter__] does
    not take it back to the start: the object is single-pass. *)
Theorem generator_follows_its_iterator {T : Type}
    (self : generator.Generator T) (g : iterator T) (fuel n : nat) :
  wraps self g ->
  wraps (generator.__iter__ self) g /\
  option_map fst (generator.nexts fuel n self) =
  option_map fst (py_nexts g fuel n (icur g)) /\
  option_map fst (generator.nexts fuel n (generator.__iter__ self)) =
  option_map fst (py_nexts g fuel n (icur g)).
Proof.
  intro Hw.
  assert (wraps (generator.__iter__ self) g) as Hw'.
  { destruct self as [gen it]. destruct Hw as [Hg _]. simpl in Hg. subst gen.
    split; [reflexivity|right; reflexivity]. }
  split; [exact Hw'|].
  split; apply generator_nexts_wraps; assumption.
Qed.

Lemma generator_follows_its_iterator_witness :
  wraps (generator.__iter__
           (generator.__init__
              (AnIterator (gen_for (py_range 0 10 1) (fun i => Emit i)))))
    (gen_for (py_range 0 10 1) (fun i => Emit i)) /\
  option_map fst
    (generator.nexts 1 10
       (generator.__init__
          (AnIterator (gen_for (py_range 0 10 1) (fun i => Emit i))))) =
  option_map fst
    (py_nexts (gen_for (py_range 0 10 1) (fun i => Emit i)) 1 10
       (icur (gen_for (py_range 0 10 1) (fun i => Emit i)))) /\
  option_map fst
    (generator.nexts 1 10
       (generator.__iter__
          (generator.__init__
             (AnIterator (gen_for (py_range 0 10 1) (fun i => Emit i)))))) =
  option_map fst
    (py_nexts (gen_for (py_range 0 10 1) (fun i => Emit i)) 1 10
       (icur (gen_for (py_range 0 10 1) (fun i => Emit i)))).
Proof.
  apply (generator_follows_its_iterator
           (generator.__init__
              (AnIterator (gen_for (py_range 0 10 1) (fun i => Emit i))))
           (gen_for (py_range 0 10 1) (fun i => Emit i)) 1 10).
  split; [reflexivity|left; reflexivity].
Defined.

Lemma generator_list_nexts {T : Type} (l : list T) (fuel n : nat) :
  forall r : list T,
    option_map fst
      (generator.nexts (S fuel) n
         (generator.MkGenerator (AList l)
            (Some (at_state (list_iterator l) r)))) =
    Some (firstn n r).
Proof.
  induction n as [|n IH]; intro r; [reflexivity|].
  destruct r as [|x r]; [reflexivity|].
  specialize (IH r).
  cbn [generator.nexts firstn].
  change (generator.__next__ (S fuel)
            (generator.MkGenerator (AList l)
               (Some (at_state (list_iterator l) (x :: r)))))
    with (Some (Some x,
                generator.MkGenerator (AList l)
                  (Some (at_state (list_iterator l) r)))).
  cbv iota beta.
  destruct (generator.nexts (S fuel) n _) as [[l1 s1]|];
    simpl in *; congruence.
Qed.

(** X25. A [Generator] made of a list starts again from the first element
    whenever [__iter__] is called, wherever it stood: the [n] calls of
    [next] that follow return the first [n] elements of the list. *)
Theorem generator_over_list_restarts {T : Type}
    (self : generator.Generator T) (l : list T) (fuel n : nat) :
  generator.generator self = AList l ->
  option_map fst (generator.nexts (S fuel) n (generator.__iter__ self)) =
  Some (firstn n l).
Proof.
  intro Hg. destruct self as [gen it]. simpl in Hg. subst gen.
  exact (generator_list_nexts l fuel n l).
Qed.

Lemma generator_over_list_restarts_witness :
  option_map fst
    (generator.nexts (S 0) 2
       (generator.__iter__
          (generator.MkGenerator (AList [4; 5; 6])
             (Some (at_state (list_iterator [4; 5; 6]) [6]))))) =
  Some (firstn 2 [4; 5; 6]).
Proof.
  apply (generator_over_list_restarts
           (generator.MkGenerator (AList [4; 5; 6])
              (Some (at_state (list_iterator [4; 5; 6]) [6])))
           [4; 5; 6] 0 2).
  reflexivity.
Defined.

Lemma count_gen_nexts (fuel n : nat) : forall m : Z,
  option_map fst (py_nexts count_py.count_gen (S fuel) n (Some m)) =
  Some (List.map (fun i => m + 1 + Z.of_nat i) (seq 0 n)).
Proof.
  induction n as [|n IH]; intro m; [reflexivity|].
  specialize (IH (m + 1)).
  cbn [py_nexts py_next count_py.count_gen inext].
  change (py_nexts {| istate := option Z; icur := None;
                      inext := inext count_py.count_gen |} (S fuel) n (Some (m + 1)))
    with (py_nexts count_py.count_gen (S fuel) n (Some (m + 1))).
  destruct (py_nexts count_py.count_gen (S fuel) n (Some (m + 1))) as [[l s]|];
    cbn [option_map fst] in IH; [|discriminate].
  injection IH as ->.
  cbn [option_map fst seq List.map]. rewrite <- seq_shift, map_map.
  change (Z.of_nat 0) with 0.
  replace (m + 1 + 0) with (m + 1) by lia.
  do 2 f_equal.
  apply map_ext; intro i; lia.
Qed.

(** X26. The [count()] of count.py, a [Generator], counts up from zero and
    never stops: [n] calls of [next] return [0], [1], ..., [n - 1]. *)
Theorem count_py_counts (fuel n : nat) :
  option_map fst (generator.nexts (S fuel) n count_py.count) =
  Some (List.map Z.of_nat (seq 0 n)).
Proof.
  rewrite (generator_nexts_wraps (S fuel) n count_py.count count_py.count_gen)
    by (split; [reflexivity|left; reflexivity]).
  destruct n as [|n]; [reflexivity|].
  pose proof (count_gen_nexts fuel n 0) as H.
  change (icur count_py.count_gen) with (@None Z).
  cbn [py_nexts py_next count_py.count_gen inext].
  change (py_nexts {| istate := option Z; icur := None;
                      inext := inext count_py.count_gen |} (S fuel) n (Some 0))
    with (py_nexts count_py.count_gen (S fuel) n (Some 0)).
  destruct (py_nexts count_py.count_gen (S fuel) n (Some 0)) as [[l s]|];
    cbn [option_map fst] in H; [|discriminate].
  injection H as ->.
  cbn [option_map fst seq List.map]. rewrite <- seq_shift, map_map.
  change (Z.of_nat 0) with 0.
  do 2 f_equal.
  apply map_ext; intro i.
  change (0 + 1 + Z.of_nat i = Z.of_nat (S i)). lia.
Qed.
